(** * smartsheet_gpt_agent: a shallow embedding of the relay and its request pipeline

    The program is a Flask application with one [before_request] hook
    ([auth_check]) and five routes.  Strings are Python [str] values,
    i.e. sequences of Unicode code points; byte buffers are Python
    [bytes].  Calls that leave the process (the storage SDK, [requests],
    the completion client) and the document parsers are deterministic
    services collected in a record; every call is logged in a trace so
    that statements such as "no downstream call occurs" can be read off
    the result of a handler. *)

From Stdlib Require Import List String Ascii ZArith NArith Bool Lia.
From Stdlib Require Import Init.Byte.
Import ListNotations.
Local Open Scope Z_scope.

(** ** Python values *)

Module Py.

(** A [str] is a sequence of code points. *)
Definition codepoint := N.
Definition str := list codepoint.

(** A [bytes] object. *)
Definition bytes := list byte.

(** String literals of the source (all of them are ASCII). *)
Definition lit (s : string) : str :=
  List.map N_of_ascii (list_ascii_of_string s).

(** The one-character string written ["\n"] in the source. *)
Definition nl : str := [10%N].

(** [len(x)], as a Python integer. *)
Definition len {A : Type} (x : list A) : Z := Z.of_nat (List.length x).

(** [a == b] on [str]. *)
Fixpoint str_eqb (a b : str) : bool :=
  match a, b with
  | [], [] => true
  | x :: a', y :: b' => N.eqb x y && str_eqb a' b'
  | _, _ => false
  end.

(** [a == b] on [Optional[str]]: [None] equals only [None]. *)
Definition opt_str_eqb (a b : option str) : bool :=
  match a, b with
  | None, None => true
  | Some x, Some y => str_eqb x y
  | _, _ => false
  end.

(** [s.startswith(p)]. *)
Fixpoint starts_with (p s : str) : bool :=
  match p, s with
  | [], _ => true
  | _ :: _, [] => false
  | x :: p', y :: s' => N.eqb x y && starts_with p' s'
  end.

(** [needle in hay] on [str]: substring containment. *)
Fixpoint contains (needle hay : str) : bool :=
  starts_with needle hay ||
  match hay with
  | [] => false
  | _ :: hay' => contains needle hay'
  end.

(** [s[:n]] for a non-negative literal [n]. *)
Definition slice_to {A : Type} (n : N) (s : list A) : list A :=
  firstn (N.to_nat n) s.

(** Truthiness of a [str]: the empty string is falsy. *)
Definition truthy (s : str) : bool :=
  match s with [] => false | _ :: _ => true end.

(** Truthiness of an [Optional[str]]: [None] and [""] are falsy. *)
Definition opt_truthy (s : option str) : bool :=
  match s with None => false | Some s' => truthy s' end.

(** [sep.join(parts)]. *)
Fixpoint join (sep : str) (parts : list str) : str :=
  match parts with
  | [] => []
  | [p] => p
  | p :: rest => p ++ sep ++ join sep rest
  end.

(** Code points for which [str.isspace] holds; [str.strip()] removes
    them from both ends. *)
Definition is_space (c : codepoint) : bool :=
  ((9 <=? c) && (c <=? 13) || (28 <=? c) && (c <=? 32) ||
   (c =? 133) || (c =? 160) || (c =? 5760) ||
   (8192 <=? c) && (c <=? 8202) || (c =? 8232) || (c =? 8233) ||
   (c =? 8239) || (c =? 8287) || (c =? 12288))%N.

Fixpoint lstrip (s : str) : str :=
  match s with
  | [] => []
  | c :: s' => if is_space c then lstrip s' else s
  end.

Definition rstrip (s : str) : str := rev (lstrip (rev s)).

Definition strip (s : str) : str := rstrip (lstrip s).

(** Exceptions: the handlers only distinguish
    [requests.exceptions.RequestException] from the rest, and only ever
    use [str(e)]. *)
Inductive exn_class := RequestException | OtherException.

Record exn := mk_exn { exn_cls : exn_class; exn_str : str }.

(** The result of a call that may raise. *)
Inductive result (A : Type) :=
| Ok (a : A)
| Raises (e : exn).
Arguments Ok {A} a.
Arguments Raises {A} e.

End Py.

Import Py.

(** ** Decoding UTF-8

    [bytes.decode("utf-8")] in strict mode: shortest-form sequences
    only, no surrogates, nothing above U+10FFFF.  [None] stands for
    [UnicodeDecodeError]. *)

Module Utf8.

Definition is_cont (b : N) : bool := ((128 <=? b) && (b <=? 191))%N.

Definition in_range (lo hi b : N) : bool := ((lo <=? b) && (b <=? hi))%N.

Definition cont_bits (b : N) : N := (b - 128)%N.

(** One code point from the front of the buffer, with the rest. *)
Definition decode_one (bs : list N) : option (codepoint * list N) :=
  match bs with
  | [] => None
  | b0 :: r0 =>
    if (b0 <=? 127)%N then Some (b0, r0)
    else if in_range 194 223 b0 then
      match r0 with
      | b1 :: r1 =>
        if is_cont b1 then Some (((b0 - 192) * 64 + cont_bits b1)%N, r1)
        else None
      | _ => None
      end
    else if in_range 224 239 b0 then
      match r0 with
      | b1 :: b2 :: r2 =>
        let lo := if (b0 =? 224)%N then 160%N else 128%N in
        let hi := if (b0 =? 237)%N then 159%N else 191%N in
        if in_range lo hi b1 && is_cont b2 then
          Some (((b0 - 224) * 4096 + cont_bits b1 * 64 + cont_bits b2)%N, r2)
        else None
      | _ => None
      end
    else if in_range 240 244 b0 then
      match r0 with
      | b1 :: b2 :: b3 :: r3 =>
        let lo := if (b0 =? 240)%N then 144%N else 128%N in
        let hi := if (b0 =? 244)%N then 143%N else 191%N in
        if in_range lo hi b1 && is_cont b2 && is_cont b3 then
          Some (((b0 - 240) * 262144 + cont_bits b1 * 4096 +
                 cont_bits b2 * 64 + cont_bits b3)%N, r3)
        else None
      | _ => None
      end
    else None
  end.

(** The decoder consumes at least one byte per code point, so the
    length of the buffer bounds the number of steps. *)
Fixpoint decode_fuel (fuel : nat) (bs : list N) : option str :=
  match bs with
  | [] => Some []
  | _ :: _ =>
    match fuel with
    | O => None
    | S fuel' =>
      match decode_one bs with
      | None => None
      | Some (c, rest) =>
        match decode_fuel fuel' rest with
        | None => None
        | Some cs => Some (c :: cs)
        end
      end
    end
  end.

Definition decode (b : bytes) : option str :=
  decode_fuel (List.length b) (List.map Byte.to_N b).

(** The encoder, used to say what a valid UTF-8 buffer is. *)
Definition is_scalar (c : codepoint) : bool :=
  ((c <=? 55295) || (57344 <=? c) && (c <=? 1114111))%N.

Definition encode_one (c : codepoint) : list N :=
  (if c <=? 127 then [c]
   else if c <=? 2047 then [192 + c / 64; 128 + c mod 64]
   else if c <=? 65535 then
     [224 + c / 4096; 128 + (c / 64) mod 64; 128 + c mod 64]
   else
     [240 + c / 262144; 128 + (c / 4096) mod 64;
      128 + (c / 64) mod 64; 128 + c mod 64])%N.

Definition encode (s : str) : list N := flat_map encode_one s.

(** A buffer is valid UTF-8 when it is the encoding of a sequence of
    Unicode scalar values. *)
Definition valid (b : bytes) : Prop :=
  exists s : str,
    Forall (fun c => is_scalar c = true) s /\ encode s = List.map Byte.to_N b.

End Utf8.

(** ** HTTP data *)

(** JSON values, as [jsonify] writes them and as [request.json] and
    [res.json()] read them: [None], [bool], [int], [float], [str],
    [list] and [dict].  Of a float only whether it is zero is kept; the
    program observes nothing else of one. *)
#[warnings="-register-all"]
Inductive json :=
| JNull
| JBool (b : bool)
| JNum (n : Z)
| JFloat (zero : bool)
| JStr (s : str)
| JArr (items : list json)
| JObj (fields : list (str * json)).

(** Truthiness of a value read from JSON. *)
Definition py_truthy (v : json) : bool :=
  match v with
  | JNull => false
  | JBool b => b
  | JNum n => negb (n =? 0)
  | JFloat zero => negb zero
  | JStr s => truthy s
  | JArr items => match items with [] => false | _ :: _ => true end
  | JObj fields => match fields with [] => false | _ :: _ => true end
  end.

(** [type(v).__name__] *)
Definition py_type_name (v : json) : str :=
  match v with
  | JNull => lit "NoneType"
  | JBool _ => lit "bool"
  | JNum _ => lit "int"
  | JFloat _ => lit "float"
  | JStr _ => lit "str"
  | JArr _ => lit "list"
  | JObj _ => lit "dict"
  end.

(** The value a [dict] read from JSON holds for a key: of a repeated
    key the last occurrence counts; [None] when the key is absent. *)
Definition dict_get (key : str) (fields : list (str * json)) : json :=
  List.fold_left
    (fun found kv => if str_eqb (fst kv) key then snd kv else found)
    fields JNull.

(** [v.get(key)]: only a [dict] has the method. *)
Definition py_get (v : json) (key : str) : result json :=
  match v with
  | JObj fields => Ok (dict_get key fields)
  | _ =>
    Raises (mk_exn OtherException
              (lit "'" ++ py_type_name v
               ++ lit "' object has no attribute 'get'"))
  end.

(** [None] becomes [null]. *)
Definition json_opt_str (o : option str) : json :=
  match o with None => JNull | Some s => JStr s end.

(** What the client receives: either a [jsonify] body or one of the
    framework's own error pages (unmatched URL, uncaught exception). *)
Inductive response_body :=
| JsonBody (j : json)
| FrameworkPage.

Record response := mk_response { status : Z; body : response_body }.

(** [return jsonify({...}), code] *)
Definition json_response (fields : list (str * json)) (code : Z) : response :=
  mk_response code (JsonBody (JObj fields)).

(** [return jsonify({"error": msg}), code] *)
Definition error_response (msg : str) (code : Z) : response :=
  json_response [(lit "error", JStr msg)] code.

(** The view functions registered with [@app.route]; Flask names an
    endpoint after its function.  [static] is the endpoint Flask itself
    registers for [/static/<path>]. *)
Inductive endpoint :=
| test_download_debug
| fallback_get_attachment
| analyze_content
| analyze_attachment
| healthcheck
| static.

Definition endpoint_eqb (a b : endpoint) : bool :=
  match a, b with
  | test_download_debug, test_download_debug
  | fallback_get_attachment, fallback_get_attachment
  | analyze_content, analyze_content
  | analyze_attachment, analyze_attachment
  | healthcheck, healthcheck
  | static, static => true
  | _, _ => false
  end.

(** What reading [request.json] does: the framework aborts the request
    with an error page of its own (400 for a body that is not JSON, 415
    for a content type that is not JSON), or the body's value is
    returned, whatever JSON value it is. *)
Inductive request_json :=
| JsonAbort (abort_status : Z)
| JsonValue (v : json).

(** Why routing found no endpoint: no rule for the URL, a rule for the
    URL but not for the method, or a redirect to the canonical URL. *)
Inductive routing_error := NotFound | MethodNotAllowed | RequestRedirect.

Definition routing_status (e : routing_error) : Z :=
  match e with
  | NotFound => 404
  | MethodNotAllowed => 405
  | RequestRedirect => 308
  end.

(** An inbound request after routing: [request.endpoint] is [None] when
    routing failed, and [req_routing_error] then says how;
    [request.headers.get("X-Internal-Access")] is [None] when the
    header is absent.  The type stands for requests that reach a view
    when routed: Flask's automatic reply to [OPTIONS] is not part of
    it. *)
Record request := mk_request {
  req_endpoint : option endpoint;
  req_routing_error : routing_error;
  x_internal_access : option str;
  sheet_id : str;
  attachment_id : str;
  req_json : request_json
}.

(** The attachment object of the storage SDK, with the name and the
    MIME type the service supplies.  [att_url] is [None] when the
    attribute is [None]. *)
Record attachment := mk_attachment {
  att_name : str;
  att_mime_type : str;
  att_url : option str;
  att_size_in_kb : json
}.

(** What [get_attachment] returns when it does not raise: an
    attachment, or the SDK's [Error] object, which has none of the
    attachment's attributes. *)
Inductive sdk_object :=
| AttachmentObject (a : attachment)
| ErrorObject.

(** A [requests.Response], as far as the handlers look at it. *)
Record http_response := mk_http_response {
  res_ok : bool;
  res_status_code : Z;
  res_headers : list (str * str);
  res_text : str;
  res_content : bytes;
  res_json : result json
}.

Record message := mk_message { role : str; msg_content : str }.

(** A chat completion: the [message.content] of each choice, and what
    [jsonify] makes of the [usage] object. *)
Record completion := mk_completion {
  choices : list (option str);
  usage_json : result json
}.

(** How [requests] is called: [get] or [post], with or without the
    storage service's [HEADERS], following redirects or not. *)
Record req_opts := mk_req_opts {
  opt_post : bool;
  opt_headers : bool;
  opt_allow_redirects : bool
}.

Inductive parser := PdfParser | Utf8Decoder | ExcelParser | DocxParser.

(** Calls worth observing: entering a view function, the outbound
    network calls and the document parsers. *)
Inductive event :=
| EvHandler (e : endpoint)
| EvGetAttachment (sheet att : str)
| EvRequests (o : req_opts) (url : str)
| EvParse (p : parser) (b : bytes)
| EvChat (messages : list message).

Definition trace := list event.

Definition is_network (ev : event) : bool :=
  match ev with
  | EvGetAttachment _ _ | EvRequests _ _ | EvChat _ => true
  | EvHandler _ | EvParse _ _ => false
  end.

Definition is_download (ev : event) : bool :=
  match ev with EvRequests _ _ => true | _ => false end.

Definition is_parse (ev : event) : bool :=
  match ev with EvParse _ _ => true | _ => false end.

Definition is_chat (ev : event) : bool :=
  match ev with EvChat _ => true | _ => false end.

(** ** The collaborators *)

Record Services := mk_services {
  (** [ss_client.Attachments.get_attachment(sheet_id, attachment_id)] *)
  get_attachment : str -> str -> result sdk_object;
  (** [requests.get(url, ...)] / [requests.post(url, ...)] *)
  requests_call : req_opts -> str -> result http_response;
  (** the archive [zipfile] builds for one [writestr(filename, data)],
      which raises for member names it cannot store *)
  zip_deflated : str -> bytes -> result bytes;
  (** [[page.get_text() for page in fitz.open(...)]] *)
  fitz_page_texts : bytes -> result (list str);
  (** [str(e)] of the [UnicodeDecodeError] for a buffer *)
  decode_error_str : bytes -> str;
  (** [pd.read_excel(stream).to_string(index=False)] *)
  read_excel_to_string : bytes -> result str;
  (** [[para.text for para in docx.Document(stream).paragraphs]] *)
  docx_paragraph_texts : bytes -> result (list str);
  (** [openai.chat.completions.create(model="gpt-4", messages=...)] *)
  chat_completions_create : list message -> result completion;
  (** Flask's answer on its [static] endpoint *)
  send_static_file : request -> response;
  (** [str(v)] of a value that is not a [str] *)
  py_str : json -> str;
  (** [str(e)] of the exception [v[:8000]] raises for a value that is
      neither a [str] nor a [list] *)
  subscript_error_str : json -> str
}.

(** Process configuration read from the environment at start-up. *)
Record Config := mk_config {
  SECRET_CODE : option str     (* os.getenv("INTERNAL_SECRET_CODE") *)
}.

Definition BASE_URL : str := lit "https://api.smartsheet.com/2.0".

(** ** Control flow of a view function

    A computation either continues with a value, has executed a
    [return], or has raised; the trace of calls is accumulated along
    the way. *)

Module Flow.

Inductive step (A : Type) :=
| Cont (a : A)
| Return (r : response)
| Raise (e : exn).
Arguments Cont {A} a.
Arguments Return {A} r.
Arguments Raise {A} e.

Definition H (A : Type) : Type := (step A * trace)%type.

Definition ret {A} (a : A) : H A := (Cont a, []).

Definition return_ {A} (r : response) : H A := (Return r, []).

Definition raise {A} (e : exn) : H A := (Raise e, []).

Definition bind {A B} (m : H A) (f : A -> H B) : H B :=
  match m with
  | (Cont a, t) => let (s, t') := f a in (s, t ++ t')
  | (Return r, t) => (Return r, t)
  | (Raise e, t) => (Raise e, t)
  end.

(** A logged call to a collaborator. *)
Definition call {A} (ev : event) (r : result A) : H A :=
  (match r with Ok a => Cont a | Raises e => Raise e end, [ev]).

(** An unlogged operation that may raise. *)
Definition lift {A} (r : result A) : H A :=
  (match r with Ok a => Cont a | Raises e => Raise e end, []).

(** [try: m  except Exception as e: h e] *)
Definition try_except {A} (m : H A) (h : exn -> H A) : H A :=
  match m with
  | (Raise e, t) => let (s, t') := h e in (s, t ++ t')
  | other => other
  end.

(** [try: m  except requests.exceptions.RequestException as e: h e] *)
Definition try_except_request {A} (m : H A) (h : exn -> H A) : H A :=
  match m with
  | (Raise e, t) =>
    match exn_cls e with
    | RequestException => let (s, t') := h e in (s, t ++ t')
    | OtherException => (Raise e, t)
    end
  | other => other
  end.

(** What Flask sends for a view: its return value, or the 500 page
    when an exception escapes. *)
Definition finish (m : H response) : response * trace :=
  match m with
  | (Cont r, t) | (Return r, t) => (r, t)
  | (Raise _, t) => (mk_response 500 FrameworkPage, t)
  end.

End Flow.

Import Flow.

Notation "x <- m ;; k" := (bind m (fun x => k))
  (at level 61, m at next level, right associativity).

(** ** The program *)

Section Program.

Variable cfg : Config.
Variable w : Services.

(** [fetch_json(url, method="GET")] returns a triple: the decoded
    body, or [None] with an error body and a status code.  The first
    component is a Python value, [None] being [JNull]: a body that
    decodes to [null] is returned as [None] too. *)
Definition fetch_json (url : str) (method : str)
  : H (json * option json * option Z) :=
  let o := mk_req_opts (negb (str_eqb method (lit "GET"))) true true in
  r <- try_except_request
         (res <- call (EvRequests o url) (requests_call w o url) ;;
          ret (inl res))
         (fun e =>
            ret (inr (JNull, Some (JObj [(lit "error", JStr (exn_str e))]),
                      Some 502))) ;;
  match r with
  | inr early => ret early
  | inl res =>
    if negb (res_ok res) then
      ret (JNull, Some (JObj [(lit "error", JStr (res_text res))]),
           Some (res_status_code res))
    else
      j <- lift (res_json res) ;;
      ret (j, None, None)
  end.

Definition size_threshold : Z := 75 * 1024 * 1024.

(** [compress_if_large(file_bytes, filename)]; it raises what
    [zipf.writestr] raises. *)
Definition compress_if_large (file_bytes : bytes) (filename : str)
  : result (bytes * option str * option str) :=
  if len file_bytes >? size_threshold then
    match zip_deflated w filename file_bytes with
    | Ok archive =>
      Ok (archive, Some (lit "application/zip"), Some (filename ++ lit ".zip"))
    | Raises e => Raises e
    end
  else Ok (file_bytes, None, None).

(** [request.endpoint not in ("healthcheck",)] *)
Definition not_in_open_endpoints (e : option endpoint) : bool :=
  match e with
  | Some e' => negb (endpoint_eqb e' healthcheck)
  | None => true
  end.

(** The [before_request] hook: [None] lets the request through. *)
Definition auth_check (req : request) : option response :=
  if not_in_open_endpoints (req_endpoint req) then
    if negb (opt_str_eqb (x_internal_access req) (SECRET_CODE cfg)) then
      Some (error_response
              (lit "Unauthorized. Invalid internal access code.") 403)
    else None
  else None.

Definition view_test_download_debug (attachment_id : str) : H response :=
  let url := BASE_URL ++ lit "/attachments/" ++ attachment_id ++ lit "/download" in
  let o := mk_req_opts false true false in
  try_except_request
    (res <- call (EvRequests o url) (requests_call w o url) ;;
     return_ (json_response
       [(lit "status_code", JNum (res_status_code res));
        (lit "headers",
         JObj (List.map (fun kv => (fst kv, JStr (snd kv))) (res_headers res)));
        (lit "text_snippet", JStr (slice_to 200 (res_text res)))] 200))
    (fun e => return_ (error_response (exn_str e) 502)).

Definition view_fallback_get_attachment (sheet_id attachment_id : str)
  : H response :=
  try_except
    (att <- call (EvGetAttachment sheet_id attachment_id)
                 (get_attachment w sheet_id attachment_id) ;;
     match att with
     | AttachmentObject att =>
       return_ (json_response
         [(lit "name", JStr (att_name att));
          (lit "type", JStr (att_mime_type att));
          (lit "url", json_opt_str (att_url att));
          (lit "size", att_size_in_kb att)] 200)
     | ErrorObject =>
       (* [att.name] is the first attribute looked up *)
       raise (mk_exn OtherException
                (lit "'Error' object has no attribute 'name'"))
     end)
    (fun e => return_ (error_response (exn_str e) 500)).

(** The two-message exchange sent to the completion model. *)
Definition chat_messages (user_content : str) : list message :=
  [mk_message (lit "system") (lit "You are a document analyst.");
   mk_message (lit "user") user_content].

(** [chat_response.choices[0].message.content] *)
Definition first_choice (c : completion) : result (option str) :=
  match choices c with
  | x :: _ => Ok x
  | [] => Raises (mk_exn OtherException (lit "list index out of range"))
  end.

(** [content[:8000]]: a slice of a [str] or of a [list]; any other
    value raises. *)
Definition py_slice_8000 (v : json) : result json :=
  match v with
  | JStr s => Ok (JStr (slice_to 8000 s))
  | JArr items => Ok (JArr (slice_to 8000 items))
  | _ => Raises (mk_exn OtherException (subscript_error_str w v))
  end.

(** A value inside an f-string: a [str] as it is, anything else
    through [str(v)]. *)
Definition py_format (v : json) : str :=
  match v with
  | JStr s => s
  | _ => py_str w v
  end.

Definition view_analyze_content (body : request_json) : H response :=
  match body with
  | JsonAbort abort_status => return_ (mk_response abort_status FrameworkPage)
  | JsonValue data =>
    content <- lift (py_get data (lit "content")) ;;
    query <- lift (py_get data (lit "query")) ;;
    if negb (py_truthy content) || negb (py_truthy query) then
      return_ (error_response
                 (lit "Both 'content' and 'query' are required.") 400)
    else
      try_except
        (sliced <- lift (py_slice_8000 content) ;;
         let messages :=
           chat_messages (py_format query ++ nl ++ nl ++ py_format sliced) in
         chat_response <- call (EvChat messages)
                               (chat_completions_create w messages) ;;
         result <- lift (first_choice chat_response) ;;
         usage <- lift (usage_json chat_response) ;;
         return_ (json_response
           [(lit "response", json_opt_str result); (lit "usage", usage)] 200))
        (fun e => return_ (error_response (lit "OpenAI error: " ++ exn_str e) 502))
  end.

(** [requests.get(attachment.url)]: a plain [get], no headers. *)
Definition download_opts : req_opts := mk_req_opts false false true.

(** First [try] block of [analyze_attachment]: metadata, download,
    size guard. *)
Definition fetch_attachment (sheet_id attachment_id : str)
  : H (attachment * bytes) :=
  try_except
    (attachment <- call (EvGetAttachment sheet_id attachment_id)
                        (get_attachment w sheet_id attachment_id) ;;
     match attachment with
     | ErrorObject =>
       (* [hasattr(attachment, 'url')] is false *)
       return_ (error_response (lit "Attachment object missing URL.") 404)
     | AttachmentObject attachment =>
       match att_url attachment with
       | None =>
         return_ (error_response (lit "Attachment object missing URL.") 404)
       | Some url =>
         if negb (truthy url) then
           return_ (error_response (lit "Attachment object missing URL.") 404)
         else
           file_res <- call (EvRequests download_opts url)
                            (requests_call w download_opts url) ;;
           let file_bytes := res_content file_res in
           compressed <- lift (compress_if_large file_bytes
                                                 (att_name attachment)) ;;
           let '(file_bytes, compressed_type, compressed_name) := compressed in
           if opt_truthy compressed_type then
             return_ (json_response
               [(lit "note", JStr (lit "File was compressed due to size."));
                (lit "filename", json_opt_str compressed_name)] 200)
           else ret (attachment, file_bytes)
       end
     end)
    (fun e =>
       return_ (error_response
                  (lit "Attachment fetch failed: " ++ exn_str e) 400)).

(** [file_stream.read().decode("utf-8")] *)
Definition decode_utf8 (b : bytes) : result str :=
  match Utf8.decode b with
  | Some s => Ok s
  | None => Raises (mk_exn OtherException (decode_error_str w b))
  end.

(** Second [try] block: dispatch on the MIME type. *)
Definition extract_text (content_type : str) (file_bytes : bytes) : H str :=
  try_except
    (if contains (lit "pdf") content_type then
       pages <- call (EvParse PdfParser file_bytes)
                     (fitz_page_texts w file_bytes) ;;
       ret (join nl pages)
     else if contains (lit "text") content_type then
       call (EvParse Utf8Decoder file_bytes) (decode_utf8 file_bytes)
     else if contains (lit "spreadsheet") content_type
             || contains (lit "excel") content_type then
       call (EvParse ExcelParser file_bytes)
            (read_excel_to_string w file_bytes)
     else if contains (lit "wordprocessingml") content_type
             || contains (lit "msword") content_type then
       paras <- call (EvParse DocxParser file_bytes)
                     (docx_paragraph_texts w file_bytes) ;;
       ret (join nl (List.map strip
                       (List.filter (fun p => truthy (strip p)) paras)))
     else
       return_ (error_response
                  (lit "Unsupported file type: " ++ content_type) 415))
    (fun e =>
       return_ (error_response
                  (lit "Document parsing failed: " ++ exn_str e) 422)).

(** Third [try] block: the completion call. *)
Definition analyze_text (raw_text : str) : H response :=
  try_except
    (let messages :=
       chat_messages
         (lit "Analyze this document:" ++ nl ++ nl ++ slice_to 8000 raw_text) in
     chat_response <- call (EvChat messages)
                           (chat_completions_create w messages) ;;
     analysis <- lift (first_choice chat_response) ;;
     return_ (json_response [(lit "analysis", json_opt_str analysis)] 200))
    (fun e => return_ (error_response (lit "OpenAI error: " ++ exn_str e) 502)).

(** Everything after the first [try] block. *)
Definition extract_and_analyze (attachment : attachment) (file_bytes : bytes)
  : H response :=
  let content_type := att_mime_type attachment in
  raw_text <- extract_text content_type file_bytes ;;
  if negb (truthy raw_text) then
    return_ (error_response (lit "Failed to extract text.") 422)
  else analyze_text raw_text.

Definition view_analyze_attachment (sheet_id attachment_id : str)
  : H response :=
  fetched <- fetch_attachment sheet_id attachment_id ;;
  extract_and_analyze (fst fetched) (snd fetched).

Definition view_healthcheck : H response :=
  return_ (json_response [(lit "status", JStr (lit "ok"))] 200).

(** Flask looks the view function up by endpoint. *)
Definition view (e : endpoint) (req : request) : H response :=
  match e with
  | test_download_debug => view_test_download_debug (attachment_id req)
  | fallback_get_attachment =>
    view_fallback_get_attachment (sheet_id req) (attachment_id req)
  | analyze_content => view_analyze_content (req_json req)
  | analyze_attachment =>
    view_analyze_attachment (sheet_id req) (attachment_id req)
  | healthcheck => view_healthcheck
  | static => return_ (send_static_file w req)
  end.

(** Flask's request dispatch: the [before_request] hook first; a
    non-[None] value from it is the response and the view is skipped.
    A request that routing could not place gets the page of its routing
    error, after the hook. *)
Definition full_dispatch_request (req : request) : response * trace :=
  match auth_check req with
  | Some r => (r, [])
  | None =>
    match req_endpoint req with
    | None =>
      (mk_response (routing_status (req_routing_error req)) FrameworkPage, [])
    | Some e =>
      let (r, t) := finish (view e req) in (r, EvHandler e :: t)
    end
  end.

End Program.

(** ** The dispatch order as a priority list

    The specification describes the extractor as a priority list of
    substrings; this is that description, to be compared with the
    [if]/[elif] chain of [extract_text]. *)

Definition dispatch_priority : list (list str * parser) :=
  [([lit "pdf"], PdfParser);
   ([lit "text"], Utf8Decoder);
   ([lit "spreadsheet"; lit "excel"], ExcelParser);
   ([lit "wordprocessingml"; lit "msword"], DocxParser)].

(** The first entry one of whose substrings occurs in the MIME type. *)
Definition select_parser (content_type : str) : option parser :=
  option_map snd
    (List.find
       (fun entry => List.existsb (fun k => contains k content_type) (fst entry))
       dispatch_priority).

(** What each extractor produces from the buffer. *)
Definition run_parser (w : Services) (p : parser) (b : bytes) : H str :=
  match p with
  | PdfParser =>
    pages <- call (EvParse PdfParser b) (fitz_page_texts w b) ;;
    ret (join nl pages)
  | Utf8Decoder => call (EvParse Utf8Decoder b) (decode_utf8 w b)
  | ExcelParser => call (EvParse ExcelParser b) (read_excel_to_string w b)
  | DocxParser =>
    paras <- call (EvParse DocxParser b) (docx_paragraph_texts w b) ;;
    ret (join nl (List.map strip
                    (List.filter (fun p => truthy (strip p)) paras)))
  end.

(** The extractor as the specification has it: pick the parser by
    priority, run it, and turn a parser's exception into 422; no
    matching entry is 415 with the MIME type echoed. *)
Definition extract_by_priority (w : Services) (content_type : str) (b : bytes)
  : H str :=
  try_except
    (match select_parser content_type with
     | Some p => run_parser w p b
     | None =>
       return_ (error_response
                  (lit "Unsupported file type: " ++ content_type) 415)
     end)
    (fun e =>
       return_ (error_response
                  (lit "Document parsing failed: " ++ exn_str e) 422)).

(** Replacing the archiver of a set of services. *)
Definition with_zip (w : Services) (z : str -> bytes -> result bytes)
  : Services :=
  mk_services (get_attachment w) (requests_call w) z (fitz_page_texts w)
              (decode_error_str w) (read_excel_to_string w)
              (docx_paragraph_texts w) (chat_completions_create w)
              (send_static_file w) (py_str w) (subscript_error_str w).

(** ** Concrete services and requests *)

Module Sample.

Definition not_found : request -> response :=
  fun _ => mk_response 404 FrameworkPage.

Definition refused : exn := mk_exn RequestException (lit "connection refused").

Definition not_a_document : exn := mk_exn OtherException (lit "cannot open").

(** [writestr] looks at the last character of the member name, so an
    empty name raises [IndexError]; other names are archived. *)
Definition archive (name : str) (b : bytes) : result bytes :=
  match name with
  | [] => Raises (mk_exn OtherException (lit "string index out of range"))
  | _ :: _ => Ok b
  end.

Definition render (v : json) : str := lit "<value>".

Definition not_subscriptable (v : json) : str :=
  lit "object is not subscriptable".

(** Every collaborator fails. *)
Definition offline : Services :=
  mk_services (fun _ _ => Raises refused) (fun _ _ => Raises refused)
              archive (fun _ => Raises not_a_document)
              (fun _ => lit "invalid start byte")
              (fun _ => Raises not_a_document)
              (fun _ => Raises not_a_document)
              (fun _ => Raises refused) not_found render not_subscriptable.

Definition download_url : str := lit "https://files.example/a".

(** The storage service knows one attachment, with the given name, MIME
    type and URL; the download of that URL yields the given bytes; the
    PDF parser finds one page; the model answers. *)
Definition serving (name mime : str) (url : option str) (content : bytes)
  : Services :=
  mk_services
    (fun _ _ => Ok (AttachmentObject (mk_attachment name mime url (JNum 1))))
    (fun _ _ => Ok (mk_http_response true 200 [] [] content (Ok JNull)))
    archive
    (fun _ => Ok [lit "page one"])
    (fun _ => lit "invalid start byte")
    (fun _ => Raises not_a_document)
    (fun _ => Raises not_a_document)
    (fun _ => Ok (mk_completion [Some (lit "summary")] (Ok JNull)))
    not_found render not_subscriptable.

(** Metadata resolves, the download fails. *)
Definition download_fails : Services :=
  mk_services
    (fun _ _ => Ok (AttachmentObject
                      (mk_attachment (lit "a.txt") (lit "text/plain")
                                     (Some download_url) (JNum 1))))
    (fun _ _ => Raises refused)
    archive (fun _ => Raises not_a_document)
    (fun _ => lit "invalid start byte")
    (fun _ => Raises not_a_document)
    (fun _ => Raises not_a_document)
    (fun _ => Raises refused) not_found render not_subscriptable.

Definition secret_unset : Config := mk_config None.

Definition secret_set : Config := mk_config (Some (lit "s3cret")).

Definition no_body : request_json := JsonValue (JObj []).

(** [GET /analyze-attachment/123/456] without the access header. *)
Definition anonymous_attachment_request : request :=
  mk_request (Some analyze_attachment) NotFound None
             (lit "123") (lit "456") no_body.

(** The same request carrying a wrong access code. *)
Definition wrong_code_request : request :=
  mk_request (Some analyze_attachment) NotFound (Some (lit "guess"))
             (lit "123") (lit "456") no_body.

(** A buffer that is not UTF-8. *)
Definition not_utf8 : bytes := [xff].

(** A buffer one byte over the size threshold, starting with a byte
    that no UTF-8 text contains. *)
Definition oversized : bytes :=
  xff :: List.repeat x00 (Z.to_nat size_threshold).

End Sample.

(** ** Vocabulary for statements about whole requests *)

(** Replacing the HTTP client of a set of services. *)
Definition with_requests (w : Services)
    (f : req_opts -> str -> result http_response) : Services :=
  mk_services (get_attachment w) f (zip_deflated w) (fitz_page_texts w)
              (decode_error_str w) (read_excel_to_string w)
              (docx_paragraph_texts w) (chat_completions_create w)
              (send_static_file w) (py_str w) (subscript_error_str w).

(** Two outcomes of [requests.get] that raise the same exception, or
    that carry the same body bytes whatever their status line, headers
    and text are. *)
Definition same_content (r1 r2 : result http_response) : Prop :=
  match r1, r2 with
  | Ok a, Ok b => res_content a = res_content b
  | Raises e1, Raises e2 => e1 = e2
  | _, _ => False
  end.

(** The kind of a logged call. *)
Inductive call_kind := KHandler | KMetadata | KRequest | KParser | KModel.

Definition kind_of (ev : event) : call_kind :=
  match ev with
  | EvHandler _ => KHandler
  | EvGetAttachment _ _ => KMetadata
  | EvRequests _ _ => KRequest
  | EvParse _ _ => KParser
  | EvChat _ => KModel
  end.

(** The order in which [analyze_attachment] reaches its collaborators. *)
Definition pipeline_order : list call_kind :=
  [KMetadata; KRequest; KParser; KModel].

(** The response carries a [jsonify] body. *)
Definition is_json (r : response) : bool :=
  match body r with JsonBody _ => true | FrameworkPage => false end.

(** The messages of the attachment pipeline for an extracted text. *)
Definition attachment_messages (raw_text : str) : list message :=
  chat_messages
    (lit "Analyze this document:" ++ nl ++ nl ++ slice_to 8000 raw_text).

(** The messages of [POST /analyze]. *)
Definition content_messages (query content : str) : list message :=
  chat_messages (query ++ nl ++ nl ++ slice_to 8000 content).

(** The URL [test_download_debug] asks for. *)
Definition debug_url (attachment_id : str) : str :=
  BASE_URL ++ lit "/attachments/" ++ attachment_id ++ lit "/download".

(** ** More concrete services *)

Module Cases.

(** As [Sample.serving], with chosen answers of the PDF and the
    word-processing parsers. *)
Definition parsing (mime : str) (pages paras : result (list str))
    (content : bytes) : Services :=
  mk_services
    (fun _ _ => Ok (AttachmentObject
                      (mk_attachment (lit "doc") mime
                                     (Some Sample.download_url) (JNum 1))))
    (fun _ _ => Ok (mk_http_response true 200 [] [] content (Ok JNull)))
    Sample.archive
    (fun _ => pages)
    (fun _ => lit "invalid start byte")
    (fun _ => Raises Sample.not_a_document)
    (fun _ => paras)
    (fun _ => Ok (mk_completion [Some (lit "summary")] (Ok JNull)))
    Sample.not_found Sample.render Sample.not_subscriptable.

Definition doc (mime : str) : attachment :=
  mk_attachment (lit "doc") mime (Some Sample.download_url) (JNum 1).

Definition fetched : trace :=
  [EvGetAttachment (lit "123") (lit "456");
   EvRequests download_opts Sample.download_url].

(** A two-page PDF without any text. *)
Definition blank_pdf : Services :=
  parsing (lit "application/pdf") (Ok [[]; []]) (Raises Sample.not_a_document)
          [x25].

(** A word-processing document whose paragraphs hold blanks only. *)
Definition blank_docx : Services :=
  parsing (lit "application/msword") (Raises Sample.not_a_document)
          (Ok [lit "  "; [9%N]; []]) [x50].

(** The storage service answers every HTTP request with an error page. *)
Definition error_page : Services :=
  with_requests
    (Sample.serving (lit "a.txt") (lit "text/plain")
                    (Some Sample.download_url) [x68; x69])
    (fun _ _ => Ok (mk_http_response false 404 [] (lit "Not Found")
                                     [x68; x69]
                                     (Raises Sample.not_a_document))).

(** The body of the specification's [POST /analyze] example. *)
Definition revenue_question : list (str * json) :=
  [(lit "content", JStr (lit "Q3 revenue grew 10%."));
   (lit "query", JStr (lit "Summarize"))].

End Cases.

(** ** Text and bytes at the gate

    [auth_check] compares two [str] values.  The header value is the
    text the server made of the header's bytes, one code point per
    byte (Latin-1); the secret is the text [os.getenv] made of the
    environment's bytes, UTF-8 with undecodable bytes kept as lone
    surrogates. *)

Module Wire.

Definition header_text (raw : bytes) : str := List.map Byte.to_N raw.

Fixpoint env_text_fuel (fuel : nat) (bs : list N) : str :=
  match fuel, bs with
  | S fuel', b0 :: rest =>
    match Utf8.decode_one bs with
    | Some (c, rest') => c :: env_text_fuel fuel' rest'
    | None => (56320 + b0)%N :: env_text_fuel fuel' rest
    end
  | _, _ => []
  end.

Definition env_text (raw : bytes) : str :=
  env_text_fuel (List.length raw) (List.map Byte.to_N raw).

(** The request a client sends with the given header bytes. *)
Definition request_with_header (e : endpoint) (raw : option bytes) : request :=
  mk_request (Some e) NotFound (option_map header_text raw)
             (lit "123") (lit "456") (JsonValue (JObj [])).

(** The configuration of a process started with the given bytes in
    [INTERNAL_SECRET_CODE]. *)
Definition config_with_secret (raw : option bytes) : Config :=
  mk_config (option_map env_text raw).

End Wire.

(** ** What "the first 8000 characters" means

    [sent] is the first 8000 characters of [text]: the whole of a text
    of at most 8000 characters, and of a longer one a proper prefix of
    exactly 8000. *)
Definition first_8000_of {A : Type} (sent text : list A) : Prop :=
  (Z.of_nat (List.length text) <= 8000 -> sent = text) /\
  (8000 < Z.of_nat (List.length text) ->
   Z.of_nat (List.length sent) = 8000 /\
   exists rest, rest <> [] /\ text = sent ++ rest).

(** * Properties *)

(** ** Python strings *)

Lemma str_eqb_refl (a : str) : str_eqb a a = true.
Proof.
  induction a as [|x a IH]; simpl; [reflexivity|].
  now rewrite N.eqb_refl, IH.
Qed.

Lemma str_eqb_eq (a b : str) : str_eqb a b = true <-> a = b.
Proof.
  split.
  - revert b; induction a as [|x a IH]; intros [|y b]; simpl;
      try discriminate; [reflexivity|].
    intros Hab. apply andb_true_iff in Hab as [Hxy Hab].
    apply N.eqb_eq in Hxy. apply IH in Hab. now subst.
  - intros ->. apply str_eqb_refl.
Qed.

Lemma opt_str_eqb_eq (a b : option str) : opt_str_eqb a b = true <-> a = b.
Proof.
  destruct a as [a|], b as [b|]; simpl; try (split; congruence).
  rewrite str_eqb_eq. split; congruence.
Qed.

Lemma starts_with_app (p s : str) :
  starts_with p s = true <-> exists suf, s = p ++ suf.
Proof.
  revert s; induction p as [|x p IH]; intros s; simpl.
  - split; [now exists s | reflexivity].
  - destruct s as [|y s].
    + split; [discriminate | intros [suf Hs]; discriminate].
    + rewrite andb_true_iff, N.eqb_eq, IH. split.
      * intros [-> [suf ->]]. now exists suf.
      * intros [suf Hs]. injection Hs as -> ->. split; [reflexivity|now exists suf].
Qed.

(** [contains] is substring containment. *)
Lemma contains_spec (needle hay : str) :
  contains needle hay = true <-> exists pre suf, hay = pre ++ needle ++ suf.
Proof.
  induction hay as [|c hay IH].
  - simpl. rewrite orb_false_r, starts_with_app. split.
    + intros [suf Hs]. now exists [], suf.
    + intros [pre [suf Hs]]. destruct pre; [now exists suf|discriminate].
  - cbn [contains]. rewrite orb_true_iff, starts_with_app, IH. split.
    + intros [[suf Hs] | [pre [suf Hs]]].
      * now exists [], suf.
      * exists (c :: pre), suf. now rewrite Hs.
    + intros [[|d pre] [suf Hs]].
      * left. now exists suf.
      * right. injection Hs as -> ->. now exists pre, suf.
Qed.

Lemma slice_to_short {A} (n : N) (s : list A) :
  len s <= Z.of_N n -> slice_to n s = s.
Proof.
  unfold len, slice_to. intros Hn. apply firstn_all2. lia.
Qed.

Lemma slice_to_long {A} (n : N) (s : list A) :
  Z.of_N n <= len s ->
  len (slice_to n s) = Z.of_N n /\
  exists rest, s = slice_to n s ++ rest.
Proof.
  unfold len, slice_to. intros Hn. split.
  - rewrite length_firstn. lia.
  - exists (skipn (N.to_nat n) s). now rewrite firstn_skipn.
Qed.

(** ** The access gate *)

Lemma auth_check_rejects cfg req secret :
  SECRET_CODE cfg = Some secret ->
  req_endpoint req <> Some healthcheck ->
  x_internal_access req <> Some secret ->
  auth_check cfg req =
    Some (error_response (lit "Unauthorized. Invalid internal access code.") 403).
Proof.
  intros Hs He Hh. unfold auth_check.
  assert (Hopen : not_in_open_endpoints (req_endpoint req) = true).
  { destruct (req_endpoint req) as [[]|]; simpl; try reflexivity.
    now contradiction He. }
  rewrite Hopen, Hs.
  destruct (opt_str_eqb (x_internal_access req) (Some secret)) eqn:Heq.
  - apply opt_str_eqb_eq in Heq. contradiction.
  - reflexivity.
Qed.




(** C10.  With the secret unset, a request without the header to any
    endpoint other than [healthcheck] passes the gate ([None] is
    compared with [None]) and the view function runs. *)
Theorem unset_secret_lets_absent_header_pass
    (cfg : Config) (w : Services) (req : request) (e : endpoint) :
  SECRET_CODE cfg = None ->
  x_internal_access req = None ->
  req_endpoint req = Some e ->
  e <> healthcheck ->
  opt_str_eqb (x_internal_access req) (SECRET_CODE cfg) = true /\
  auth_check cfg req = None /\
  full_dispatch_request cfg w req =
    (fst (finish (view w e req)), EvHandler e :: snd (finish (view w e req))).
Proof.
  intros Hs Hh He Hne.
  assert (Hgate : auth_check cfg req = None).
  { unfold auth_check. now rewrite Hs, Hh, He; destruct e. }
  split; [now rewrite Hs, Hh|]. split; [exact Hgate|].
  unfold full_dispatch_request. rewrite Hgate, He.
  now destruct (finish (view w e req)).
Qed.

Lemma unset_secret_lets_absent_header_pass_witness :
  full_dispatch_request Sample.secret_unset Sample.offline
                        Sample.anonymous_attachment_request =
    (error_response
       (lit "Attachment fetch failed: connection refused") 400,
     [EvHandler analyze_attachment; EvGetAttachment (lit "123") (lit "456")]).
Proof.
  exact (proj2 (proj2
    (unset_secret_lets_absent_header_pass
       Sample.secret_unset Sample.offline Sample.anonymous_attachment_request
       analyze_attachment eq_refl eq_refl eq_refl
       (fun H => match H in _ = y return
                   match y with healthcheck => False | _ => True end
                 with eq_refl => I end)))).
Defined.

(** ** The attachment fetcher and the size guard *)

Section Fetch.

Variable w : Services.
Variables sheet att : str.
Variable url : str.

Lemma fetch_metadata_raises (e : exn) :
  get_attachment w sheet att = Raises e ->
  fetch_attachment w sheet att =
    (Return (error_response (lit "Attachment fetch failed: " ++ exn_str e) 400),
     [EvGetAttachment sheet att]).
Proof.
  intros Hm. unfold fetch_attachment, call. now rewrite Hm.
Qed.

Lemma fetch_no_url (a : attachment) :
  get_attachment w sheet att = Ok (AttachmentObject a) ->
  opt_truthy (att_url a) = false ->
  fetch_attachment w sheet att =
    (Return (error_response (lit "Attachment object missing URL.") 404),
     [EvGetAttachment sheet att]).
Proof.
  intros Hm Hu. unfold fetch_attachment, call. rewrite Hm. simpl.
  destruct (att_url a) as [u|]; simpl in *; [|reflexivity].
  now rewrite Hu.
Qed.

Lemma fetch_error_object :
  get_attachment w sheet att = Ok ErrorObject ->
  fetch_attachment w sheet att =
    (Return (error_response (lit "Attachment object missing URL.") 404),
     [EvGetAttachment sheet att]).
Proof.
  intros Hm. unfold fetch_attachment, call. now rewrite Hm.
Qed.

Lemma fetch_download_raises (a : attachment) (e : exn) :
  get_attachment w sheet att = Ok (AttachmentObject a) ->
  att_url a = Some url ->
  truthy url = true ->
  requests_call w download_opts url = Raises e ->
  fetch_attachment w sheet att =
    (Return (error_response (lit "Attachment fetch failed: " ++ exn_str e) 400),
     [EvGetAttachment sheet att; EvRequests download_opts url]).
Proof.
  intros Hm Hu Ht Hd. unfold fetch_attachment, call. rewrite Hm. simpl.
  rewrite Hu, Ht. simpl. now rewrite Hd.
Qed.

Lemma compress_large (b : bytes) (name : str) :
  size_threshold < len b ->
  compress_if_large w b name =
    match zip_deflated w name b with
    | Ok archive =>
      Ok (archive, Some (lit "application/zip"), Some (name ++ lit ".zip"))
    | Raises e => Raises e
    end.
Proof.
  intros Hlen. unfold compress_if_large.
  destruct (len b >? size_threshold) eqn:Hgt; [reflexivity|].
  rewrite Z.gtb_ltb in Hgt. apply Z.ltb_ge in Hgt. lia.
Qed.

Lemma fetch_large (a : attachment) (res : http_response) (archive : bytes) :
  get_attachment w sheet att = Ok (AttachmentObject a) ->
  att_url a = Some url ->
  truthy url = true ->
  requests_call w download_opts url = Ok res ->
  size_threshold < len (res_content res) ->
  zip_deflated w (att_name a) (res_content res) = Ok archive ->
  fetch_attachment w sheet att =
    (Return (mk_response 200 (JsonBody (JObj
       [(lit "note", JStr (lit "File was compressed due to size."));
        (lit "filename", JStr (att_name a ++ lit ".zip"))]))),
     [EvGetAttachment sheet att; EvRequests download_opts url]).
Proof.
  intros Hm Hu Ht Hd Hlen Hz. unfold fetch_attachment, call. rewrite Hm. simpl.
  rewrite Hu, Ht. simpl. rewrite Hd. simpl.
  now rewrite (compress_large _ _ Hlen), Hz.
Qed.

Lemma fetch_archive_raises (a : attachment) (res : http_response) (e : exn) :
  get_attachment w sheet att = Ok (AttachmentObject a) ->
  att_url a = Some url ->
  truthy url = true ->
  requests_call w download_opts url = Ok res ->
  size_threshold < len (res_content res) ->
  zip_deflated w (att_name a) (res_content res) = Raises e ->
  fetch_attachment w sheet att =
    (Return (mk_response 400 (JsonBody (JObj
       [(lit "error", JStr (lit "Attachment fetch failed: " ++ exn_str e))]))),
     [EvGetAttachment sheet att; EvRequests download_opts url]).
Proof.
  intros Hm Hu Ht Hd Hlen Hz. unfold fetch_attachment, call. rewrite Hm. simpl.
  rewrite Hu, Ht. simpl. rewrite Hd. simpl.
  now rewrite (compress_large _ _ Hlen), Hz.
Qed.

Lemma compress_small (b : bytes) (name : str) :
  len b <= size_threshold ->
  compress_if_large w b name = Ok (b, None, None).
Proof.
  intros Hlen. unfold compress_if_large.
  destruct (len b >? size_threshold) eqn:Hgt; [|reflexivity].
  rewrite Z.gtb_ltb in Hgt. apply Z.ltb_lt in Hgt. lia.
Qed.

Lemma fetch_small (a : attachment) (res : http_response) :
  get_attachment w sheet att = Ok (AttachmentObject a) ->
  att_url a = Some url ->
  truthy url = true ->
  requests_call w download_opts url = Ok res ->
  len (res_content res) <= size_threshold ->
  fetch_attachment w sheet att =
    (Cont (a, res_content res), [EvGetAttachment sheet att; EvRequests download_opts url]).
Proof.
  intros Hm Hu Ht Hd Hlen. unfold fetch_attachment, call. rewrite Hm. simpl.
  rewrite Hu, Ht. simpl. rewrite Hd. simpl.
  now rewrite (compress_small _ _ Hlen).
Qed.

(** The first stage never parses and never calls the model. *)
Lemma fetch_trace_quiet :
  forallb (fun ev => negb (is_parse ev || is_chat ev))
          (snd (fetch_attachment w sheet att)) = true.
Proof.
  unfold fetch_attachment, call.
  destruct (get_attachment w sheet att) as [[a|]|e]; simpl; try reflexivity.
  destruct (att_url a) as [u|]; simpl; [|reflexivity].
  destruct (truthy u); simpl; [|reflexivity].
  destruct (requests_call w _ u) as [res|e]; simpl; [|reflexivity].
  destruct (compress_if_large w (res_content res) (att_name a))
    as [[[b ct] cn]|e]; simpl; [|reflexivity].
  now destruct (opt_truthy ct).
Qed.

End Fetch.

Lemma view_stops_at_fetch (w : Services) (sheet att : str)
    (r : response) (t : trace) :
  fetch_attachment w sheet att = (Return r, t) ->
  finish (view_analyze_attachment w sheet att) = (r, t).
Proof.
  intros Hf. unfold view_analyze_attachment, bind. now rewrite Hf.
Qed.

Lemma view_after_fetch (w : Services) (sheet att : str)
    (a : attachment) (b : bytes) (t : trace) :
  fetch_attachment w sheet att = (Cont (a, b), t) ->
  view_analyze_attachment w sheet att =
    (fst (extract_and_analyze w a b), t ++ snd (extract_and_analyze w a b)).
Proof.
  intros Hf. unfold view_analyze_attachment, bind. rewrite Hf. simpl.
  now destruct (extract_and_analyze w a b).
Qed.

Lemma len_cons_repeat {A} (x y : A) (n : nat) :
  len (x :: List.repeat y n) = Z.of_nat n + 1.
Proof.
  unfold len. cbn [List.length]. rewrite repeat_length. lia.
Qed.

Lemma oversized_len : len Sample.oversized = size_threshold + 1.
Proof.
  unfold Sample.oversized. rewrite len_cons_repeat.
  rewrite Z2Nat.id; [reflexivity|]. unfold size_threshold. lia.
Qed.






(** The unused helper [fetch_json] is the only place where a failure of
    the storage service becomes 502. *)
Lemma fetch_json_request_exception (w : Services) (url method : str) (e : exn) :
  requests_call w (mk_req_opts (negb (str_eqb method (lit "GET"))) true true) url
    = Raises e ->
  exn_cls e = RequestException ->
  fst (fetch_json w url method) =
    Cont (JNull, Some (JObj [(lit "error", JStr (exn_str e))]), Some 502).
Proof.
  intros Hr Hc. unfold fetch_json, call, try_except_request, bind, ret.
  rewrite Hr. simpl. now rewrite Hc.
Qed.

(** C4 (as amended).  A download longer than 75 MiB whose archive is
    built without an exception is answered with 200 and the notice
    naming [<name>.zip]; the trace holds the metadata call and the
    download only, so nothing is parsed and the model is not called;
    and the answer is the same whatever bytes the archiver produces:
    the archive is not part of it. *)
Theorem oversized_download_gets_notice
    (w : Services) (sheet att url : str) (a : attachment)
    (res : http_response) (archive : bytes) :
  get_attachment w sheet att = Ok (AttachmentObject a) ->
  att_url a = Some url ->
  truthy url = true ->
  requests_call w download_opts url = Ok res ->
  75 * 1024 * 1024 < len (res_content res) ->
  zip_deflated w (att_name a) (res_content res) = Ok archive ->
  finish (view_analyze_attachment w sheet att) =
    (mk_response 200 (JsonBody (JObj
       [(lit "note", JStr (lit "File was compressed due to size."));
        (lit "filename", JStr (att_name a ++ lit ".zip"))])),
     [EvGetAttachment sheet att; EvRequests download_opts url]) /\
  forall (z : str -> bytes -> result bytes) (other : bytes),
    z (att_name a) (res_content res) = Ok other ->
    finish (view_analyze_attachment (with_zip w z) sheet att) =
    finish (view_analyze_attachment w sheet att).
Proof.
  intros Hm Hu Ht Hd Hlen Hz.
  assert (Hw : finish (view_analyze_attachment w sheet att) =
    (mk_response 200 (JsonBody (JObj
       [(lit "note", JStr (lit "File was compressed due to size."));
        (lit "filename", JStr (att_name a ++ lit ".zip"))])),
     [EvGetAttachment sheet att; EvRequests download_opts url])).
  { apply view_stops_at_fetch.
    now apply (fetch_large w sheet att url a res archive). }
  split; [exact Hw|].
  intros z other Hother. rewrite Hw. apply view_stops_at_fetch.
  now apply (fetch_large (with_zip w z) sheet att url a res other).
Qed.

Lemma oversized_download_gets_notice_witness :
  finish (view_analyze_attachment
            (Sample.serving (lit "big.bin") (lit "application/pdf")
                            (Some Sample.download_url) Sample.oversized)
            (lit "123") (lit "456")) =
    (mk_response 200 (JsonBody (JObj
       [(lit "note", JStr (lit "File was compressed due to size."));
        (lit "filename", JStr (lit "big.bin.zip"))])),
     [EvGetAttachment (lit "123") (lit "456");
      EvRequests download_opts Sample.download_url]).
Proof.
  refine (proj1 (oversized_download_gets_notice
    (Sample.serving (lit "big.bin") (lit "application/pdf")
                    (Some Sample.download_url) Sample.oversized)
    (lit "123") (lit "456") Sample.download_url
    (mk_attachment (lit "big.bin") (lit "application/pdf")
                   (Some Sample.download_url) (JNum 1))
    (mk_http_response true 200 [] [] Sample.oversized (Ok JNull))
    Sample.oversized
    eq_refl eq_refl eq_refl eq_refl _ eq_refl)).
  change (75 * 1024 * 1024 < len Sample.oversized).
  rewrite oversized_len. unfold size_threshold. lia.
Defined.

(** C4 as written fails when the archiver raises: [writestr] refuses
    an empty member name, the exception is caught by the first [try]
    block, and the oversized download is answered with 400 instead of
    the notice. *)
Lemma oversized_download_archive_raises :
  75 * 1024 * 1024 < len Sample.oversized /\
  finish (view_analyze_attachment
            (Sample.serving [] (lit "application/pdf")
                            (Some Sample.download_url) Sample.oversized)
            (lit "123") (lit "456")) =
    (mk_response 400 (JsonBody (JObj
       [(lit "error",
         JStr (lit "Attachment fetch failed: string index out of range"))])),
     [EvGetAttachment (lit "123") (lit "456");
      EvRequests download_opts Sample.download_url]).
Proof.
  assert (Hlen : size_threshold < len Sample.oversized)
    by (rewrite oversized_len; lia).
  split; [exact Hlen|].
  apply view_stops_at_fetch.
  exact (fetch_archive_raises
    (Sample.serving [] (lit "application/pdf")
                    (Some Sample.download_url) Sample.oversized)
    (lit "123") (lit "456") Sample.download_url
    (mk_attachment [] (lit "application/pdf")
                   (Some Sample.download_url) (JNum 1))
    (mk_http_response true 200 [] [] Sample.oversized (Ok JNull))
    (mk_exn OtherException (lit "string index out of range"))
    eq_refl eq_refl eq_refl eq_refl Hlen eq_refl).
Qed.

(** ** The UTF-8 decoder against the encoder *)

Module Utf8Facts.

Import Utf8.

Ltac Zify.zify_post_hook ::= Z.to_euclidean_division_equations.

Ltac to_props :=
  repeat match goal with
  | H : (_ && _)%bool = true |- _ => apply andb_true_iff in H; destruct H
  | H : (_ || _)%bool = true |- _ => apply orb_true_iff in H
  | H : (_ <=? _)%N = true |- _ => apply N.leb_le in H
  | H : (_ <=? _)%N = false |- _ => apply N.leb_gt in H
  | H : (_ =? _)%N = true |- _ => apply N.eqb_eq in H
  | H : (_ =? _)%N = false |- _ => apply N.eqb_neq in H
  end.

Ltac split_ifs :=
  repeat match goal with
  | |- context [if ?c then _ else _] =>
    let E := fresh "E" in destruct c eqn:E
  | H : context [if ?c then _ else _] |- _ =>
    let E := fresh "E" in destruct c eqn:E
  end.

Lemma decode_one_sound (bs : list N) (c : codepoint) (rest : list N) :
  decode_one bs = Some (c, rest) ->
  is_scalar c = true /\ bs = encode_one c ++ rest.
Proof.
  unfold decode_one, in_range, is_cont, cont_bits.
  destruct bs as [|b0 r0]; [discriminate|].
  destruct (b0 <=? 127)%N eqn:E0.
  { intros [= <- <-]. to_props. unfold is_scalar, encode_one.
    split.
    - apply orb_true_iff. left. apply N.leb_le. lia.
    - replace (b0 <=? 127)%N with true by (symmetry; apply N.leb_le; lia).
      reflexivity. }
  destruct ((194 <=? b0)%N && (b0 <=? 223)%N) eqn:E1.
  { destruct r0 as [|b1 r1]; [discriminate|].
    destruct ((128 <=? b1)%N && (b1 <=? 191)%N) eqn:E2; [|discriminate].
    intros [= <- <-]. to_props. unfold is_scalar, encode_one.
    split.
    - apply orb_true_iff. left. apply N.leb_le. lia.
    - replace (_ <=? 127)%N with false by (symmetry; apply N.leb_gt; lia).
      replace (_ <=? 2047)%N with true by (symmetry; apply N.leb_le; lia).
      cbn [app]. f_equal; [lia|]. f_equal. lia. }
  destruct ((224 <=? b0)%N && (b0 <=? 239)%N) eqn:E2.
  { destruct r0 as [|b1 [|b2 r2]]; try discriminate.
    cbv zeta. unfold is_scalar, encode_one.
    destruct (b0 =? 224)%N eqn:Ea; destruct (b0 =? 237)%N eqn:Eb;
      (match goal with
       | |- (if ?c then _ else _) = _ -> _ => destruct c eqn:E3; [|discriminate]
       end);
      intros [= <- <-]; to_props;
      (split;
       [ rewrite orb_true_iff, andb_true_iff, !N.leb_le; lia
       | replace (_ <=? 127)%N with false by (symmetry; apply N.leb_gt; lia);
         replace (_ <=? 2047)%N with false by (symmetry; apply N.leb_gt; lia);
         replace (_ <=? 65535)%N with true by (symmetry; apply N.leb_le; lia);
         cbn [app]; f_equal; [lia|]; f_equal; [lia|]; f_equal; lia ]). }
  destruct ((240 <=? b0)%N && (b0 <=? 244)%N) eqn:E3; [|discriminate].
  destruct r0 as [|b1 [|b2 [|b3 r3]]]; try discriminate.
  cbv zeta. unfold is_scalar, encode_one.
  destruct (b0 =? 240)%N eqn:Ea; destruct (b0 =? 244)%N eqn:Eb;
    (match goal with
     | |- (if ?c then _ else _) = _ -> _ => destruct c eqn:E4; [|discriminate]
     end);
    intros [= <- <-]; to_props;
    (split;
     [ rewrite orb_true_iff, andb_true_iff, !N.leb_le; lia
     | replace (_ <=? 127)%N with false by (symmetry; apply N.leb_gt; lia);
       replace (_ <=? 2047)%N with false by (symmetry; apply N.leb_gt; lia);
       replace (_ <=? 65535)%N with false by (symmetry; apply N.leb_gt; lia);
       cbn [app]; f_equal; [lia|]; f_equal; [lia|]; f_equal; [lia|]; f_equal; lia ]).
Qed.

Ltac solve_true := rewrite ?andb_true_iff, ?N.leb_le; lia.

Ltac solve_false :=
  apply not_true_is_false; rewrite ?andb_true_iff, ?N.leb_le; lia.

Ltac decide_cond c :=
  first [ replace c with true by (symmetry; solve_true)
        | replace c with false by (symmetry; solve_false) ];
  cbv beta iota.

Ltac decide_ifs :=
  repeat match goal with
  | |- context [(?a =? ?b)%N] =>
    let E := fresh "E" in destruct (a =? b)%N eqn:E; to_props; cbv beta iota
  | |- context [if ?c then _ else _] => decide_cond c
  end.

Lemma decode_one_encode_one (c : codepoint) (rest : list N) :
  is_scalar c = true ->
  decode_one (encode_one c ++ rest) = Some (c, rest).
Proof.
  unfold is_scalar, encode_one. intros Hs.
  apply orb_true_iff in Hs. rewrite andb_true_iff, !N.leb_le in Hs.
  destruct (c <=? 127)%N eqn:E0;
    [| destruct (c <=? 2047)%N eqn:E1; [| destruct (c <=? 65535)%N eqn:E2]];
    to_props; cbn [app]; unfold decode_one, in_range, is_cont, cont_bits;
    cbv zeta; decide_ifs; f_equal; f_equal; lia.
Qed.

Lemma encode_one_nonempty (c : codepoint) :
  exists b bs, encode_one c = b :: bs.
Proof.
  unfold encode_one.
  destruct (c <=? 127)%N; [|destruct (c <=? 2047)%N; [|destruct (c <=? 65535)%N]];
    eexists; eexists; reflexivity.
Qed.

Lemma decode_fuel_sound (fuel : nat) :
  forall (bs : list N) (s : str),
    decode_fuel fuel bs = Some s ->
    Forall (fun c => is_scalar c = true) s /\ encode s = bs.
Proof.
  induction fuel as [|fuel IH]; intros [|b bs] s; cbn [decode_fuel].
  - intros [= <-]. split; [constructor|reflexivity].
  - discriminate.
  - intros [= <-]. split; [constructor|reflexivity].
  - destruct (decode_one (b :: bs)) as [[c rest]|] eqn:Hone; [|discriminate].
    destruct (decode_fuel fuel rest) as [cs|] eqn:Hrest; [|discriminate].
    intros [= <-].
    apply decode_one_sound in Hone as [Hc Hbs].
    apply IH in Hrest as [Hcs Henc].
    split; [now constructor|].
    unfold encode in *. cbn [flat_map]. now rewrite Henc, Hbs.
Qed.

Lemma decode_fuel_complete (s : str) :
  Forall (fun c => is_scalar c = true) s ->
  forall fuel : nat,
    (List.length (encode s) <= fuel)%nat ->
    decode_fuel fuel (encode s) = Some s.
Proof.
  induction 1 as [|c s Hc Hs IH]; intros fuel Hfuel.
  - now destruct fuel.
  - unfold encode in *. cbn [flat_map] in *.
    pose proof (decode_one_encode_one c (flat_map encode_one s) Hc) as Hone.
    destruct (encode_one_nonempty c) as (b & bs & Hb).
    rewrite Hb in *. cbn [app List.length] in *.
    destruct fuel as [|fuel]; [lia|].
    cbn [decode_fuel]. rewrite Hone, IH; [reflexivity|].
    rewrite length_app in Hfuel. lia.
Qed.

(** Decoding succeeds exactly on valid UTF-8, and then returns the
    encoded text. *)
Lemma decode_some_iff (b : bytes) (s : str) :
  decode b = Some s <->
  Forall (fun c => is_scalar c = true) s /\ encode s = List.map Byte.to_N b.
Proof.
  unfold decode. split.
  - apply decode_fuel_sound.
  - intros [Hs Henc]. rewrite <- Henc. apply decode_fuel_complete; [exact Hs|].
    rewrite Henc, length_map. lia.
Qed.

Lemma decode_none_iff (b : bytes) : decode b = None <-> ~ valid b.
Proof.
  unfold valid. split.
  - intros Hnone [s Hs]. apply decode_some_iff in Hs. congruence.
  - intros Hinv. destruct (decode b) as [s|] eqn:Hd; [|reflexivity].
    exfalso. apply Hinv. exists s. now apply decode_some_iff.
Qed.

End Utf8Facts.

(** ** The extractor *)


Lemma select_parser_chain (ct : str) :
  select_parser ct =
    if contains (lit "pdf") ct then Some PdfParser
    else if contains (lit "text") ct then Some Utf8Decoder
    else if contains (lit "spreadsheet") ct || contains (lit "excel") ct
    then Some ExcelParser
    else if contains (lit "wordprocessingml") ct || contains (lit "msword") ct
    then Some DocxParser
    else None.
Proof.
  unfold select_parser, dispatch_priority.
  cbn [List.find List.existsb fst snd].
  rewrite !orb_false_r.
  destruct (contains (lit "pdf") ct); [reflexivity|].
  destruct (contains (lit "text") ct); [reflexivity|].
  destruct (contains (lit "spreadsheet") ct || contains (lit "excel") ct);
    [reflexivity|].
  now destruct (contains (lit "wordprocessingml") ct
                || contains (lit "msword") ct).
Qed.

Lemma extract_text_by_priority (w : Services) (ct : str) (b : bytes) :
  extract_text w ct b = extract_by_priority w ct b.
Proof.
  unfold extract_text, extract_by_priority.
  rewrite select_parser_chain.
  destruct (contains (lit "pdf") ct); [reflexivity|].
  destruct (contains (lit "text") ct); [reflexivity|].
  destruct (contains (lit "spreadsheet") ct || contains (lit "excel") ct);
    [reflexivity|].
  now destruct (contains (lit "wordprocessingml") ct
                || contains (lit "msword") ct).
Qed.

(** Each parser is called once, on the buffer it is given. *)
Lemma run_parser_trace (w : Services) (p : parser) (b : bytes) :
  snd (run_parser w p b) = [EvParse p b].
Proof.
  destruct p; cbn [run_parser]; unfold bind, call, ret.
  - now destruct (fitz_page_texts w b).
  - reflexivity.
  - reflexivity.
  - now destruct (docx_paragraph_texts w b).
Qed.

Lemma extract_text_trace (w : Services) (ct : str) (b : bytes) :
  snd (extract_text w ct b) =
    match select_parser ct with
    | Some p => [EvParse p b]
    | None => []
    end.
Proof.
  rewrite extract_text_by_priority. unfold extract_by_priority, try_except.
  destruct (select_parser ct) as [p|]; [|reflexivity].
  pose proof (run_parser_trace w p b) as Ht.
  destruct (run_parser w p b) as [[x|r|e] t]; simpl in *; subst; reflexivity.
Qed.

Lemma extract_text_no_chat (w : Services) (ct : str) (b : bytes) :
  existsb is_chat (snd (extract_text w ct b)) = false.
Proof.
  rewrite extract_text_trace. now destruct (select_parser ct).
Qed.

Lemma fetch_no_chat (w : Services) (sheet att : str) :
  existsb is_chat (snd (fetch_attachment w sheet att)) = false.
Proof.
  pose proof (fetch_trace_quiet w sheet att) as Hq.
  induction (snd (fetch_attachment w sheet att)) as [|ev t IH]; [reflexivity|].
  cbn [forallb existsb] in *. apply andb_true_iff in Hq as [Hev Ht].
  rewrite (IH Ht). destruct ev; simpl in *; congruence.
Qed.

(** C3 (as amended).  The [if]/[elif] chain of the extractor is the
    priority list pdf, text, spreadsheet/excel, wordprocessingml/msword
    over substring containment: the first entry with a substring
    occurring in the MIME type picks the parser, which is called
    exactly once on the downloaded bytes, and no other parser is.  A
    type containing both "text" and "spreadsheet", and not "pdf", takes
    the text branch.  A type matching no entry yields 415 with the MIME
    type echoed, without any parser call, also at the level of the
    whole pipeline. *)
Theorem extractor_dispatch_order (w : Services) (ct : str) (b : bytes) :
  (forall k : str,
     contains k ct = true <-> exists pre suf, ct = pre ++ k ++ suf) /\
  extract_text w ct b = extract_by_priority w ct b /\
  select_parser ct =
    (if contains (lit "pdf") ct then Some PdfParser
     else if contains (lit "text") ct then Some Utf8Decoder
     else if contains (lit "spreadsheet") ct || contains (lit "excel") ct
     then Some ExcelParser
     else if contains (lit "wordprocessingml") ct
             || contains (lit "msword") ct
     then Some DocxParser
     else None) /\
  snd (extract_text w ct b) =
    match select_parser ct with Some p => [EvParse p b] | None => [] end /\
  (contains (lit "text") ct = true ->
   contains (lit "spreadsheet") ct = true ->
   contains (lit "pdf") ct = false ->
   snd (extract_text w ct b) = [EvParse Utf8Decoder b]) /\
  (select_parser ct = None <->
   Forall (fun k => contains (lit k) ct = false)
          ["pdf"; "text"; "spreadsheet"; "excel"; "wordprocessingml";
           "msword"]%string) /\
  (select_parser ct = None ->
   extract_text w ct b =
     (Return (mk_response 415 (JsonBody (JObj
        [(lit "error", JStr (lit "Unsupported file type: " ++ ct))]))), []) /\
   forall (sheet att : str) (a : attachment) (t : trace),
     fetch_attachment w sheet att = (Cont (a, b), t) ->
     att_mime_type a = ct ->
     finish (view_analyze_attachment w sheet att) =
       (mk_response 415 (JsonBody (JObj
          [(lit "error", JStr (lit "Unsupported file type: " ++ ct))])), t)).
Proof.
  split; [intros k; apply contains_spec|].
  split; [apply extract_text_by_priority|].
  split; [apply select_parser_chain|].
  split; [apply extract_text_trace|].
  split.
  { intros Ht Hs Hp. rewrite extract_text_trace, select_parser_chain.
    now rewrite Hp, Ht. }
  split.
  { rewrite select_parser_chain. split.
    - intros Hnone.
      destruct (contains (lit "pdf") ct) eqn:H1; [discriminate|].
      destruct (contains (lit "text") ct) eqn:H2; [discriminate|].
      destruct (contains (lit "spreadsheet") ct) eqn:H3; [discriminate|].
      destruct (contains (lit "excel") ct) eqn:H4; [discriminate|].
      destruct (contains (lit "wordprocessingml") ct) eqn:H5; [discriminate|].
      destruct (contains (lit "msword") ct) eqn:H6; [discriminate|].
      repeat constructor; assumption.
    - intros Hall.
      repeat match goal with
      | H : Forall _ (_ :: _) |- _ => inversion H; subst; clear H
      end.
      now repeat match goal with
      | H : contains _ ct = false |- _ => rewrite H; clear H
      end. }
  intros Hnone.
  assert (Hx : extract_text w ct b =
    (Return (mk_response 415 (JsonBody (JObj
       [(lit "error", JStr (lit "Unsupported file type: " ++ ct))]))), [])).
  { rewrite extract_text_by_priority. unfold extract_by_priority.
    now rewrite Hnone. }
  split; [exact Hx|].
  intros sheet att a t Hf Hct.
  rewrite (view_after_fetch w sheet att a b t Hf).
  unfold extract_and_analyze. rewrite Hct, Hx. simpl.
  now rewrite app_nil_r.
Qed.

Lemma extractor_dispatch_order_witness :
  contains (lit "text") (lit "text/spreadsheet") = true /\
  contains (lit "spreadsheet") (lit "text/spreadsheet") = true /\
  snd (extract_text Sample.offline (lit "text/spreadsheet") [x68; x69]) =
    [EvParse Utf8Decoder [x68; x69]].
Proof.
  split; [reflexivity|]. split; [reflexivity|].
  exact (proj1 (proj2 (proj2 (proj2 (proj2
    (extractor_dispatch_order Sample.offline (lit "text/spreadsheet")
                              [x68; x69])))))
    eq_refl eq_refl eq_refl).
Defined.

(** C3 as written fails in its remark on types containing both "text"
    and "spreadsheet": when "pdf" occurs too, the PDF parser is called,
    not the text decoder. *)
Lemma text_and_spreadsheet_with_pdf :
  contains (lit "text") (lit "text/pdf-spreadsheet") = true /\
  contains (lit "spreadsheet") (lit "text/pdf-spreadsheet") = true /\
  extract_text
    (Sample.serving (lit "a") (lit "text/pdf-spreadsheet")
                    (Some Sample.download_url) [x68; x69])
    (lit "text/pdf-spreadsheet") [x68; x69] =
    (Cont (lit "page one"), [EvParse PdfParser [x68; x69]]).
Proof.
  repeat split; reflexivity.
Qed.

Lemma extract_and_analyze_empty (w : Services) (a : attachment) (b : bytes)
    (t : trace) :
  extract_text w (att_mime_type a) b = (Cont [], t) ->
  extract_and_analyze w a b =
    (Return (error_response (lit "Failed to extract text.") 422), t).
Proof.
  intros Hx. unfold extract_and_analyze, bind. rewrite Hx. simpl.
  now rewrite app_nil_r.
Qed.



Lemma extract_text_invalid_utf8 (w : Services) (ct : str) (b : bytes) :
  contains (lit "text") ct = true ->
  contains (lit "pdf") ct = false ->
  ~ Utf8.valid b ->
  extract_text w ct b =
    (Return (error_response
               (lit "Document parsing failed: " ++ decode_error_str w b) 422),
     [EvParse Utf8Decoder b]).
Proof.
  intros Ht Hp Hinv. apply Utf8Facts.decode_none_iff in Hinv.
  unfold extract_text, decode_utf8, try_except, call.
  now rewrite Hp, Ht, Hinv.
Qed.


Lemma not_utf8_invalid : ~ Utf8.valid Sample.not_utf8.
Proof.
  apply Utf8Facts.decode_none_iff. reflexivity.
Qed.

Lemma leading_ff_invalid (b : bytes) : ~ Utf8.valid (xff :: b).
Proof.
  apply Utf8Facts.decode_none_iff. reflexivity.
Qed.



(** C9.  A buffer of at most 75 MiB (the bound included) comes back
    from the size guard unchanged, with neither a compressed type nor
    an archive name, and the pipeline goes on to the extractor with the
    downloaded bytes themselves. *)
Theorem small_buffer_passes_through
    (w : Services) (file_bytes : bytes) (filename : str) :
  len file_bytes <= 75 * 1024 * 1024 ->
  compress_if_large w file_bytes filename = Ok (file_bytes, None, None) /\
  forall (sheet att url : str) (a : attachment) (res : http_response),
    get_attachment w sheet att = Ok (AttachmentObject a) ->
    att_url a = Some url ->
    truthy url = true ->
    requests_call w download_opts url = Ok res ->
    res_content res = file_bytes ->
    view_analyze_attachment w sheet att =
      (fst (extract_and_analyze w a file_bytes),
       [EvGetAttachment sheet att; EvRequests download_opts url]
       ++ snd (extract_and_analyze w a file_bytes)).
Proof.
  intros Hlen. split; [now apply compress_small|].
  intros sheet att url a res Hm Hu Ht Hd Hb. subst file_bytes.
  apply view_after_fetch. now apply fetch_small.
Qed.

Lemma small_buffer_passes_through_witness :
  compress_if_large Sample.offline [x68; x69] (lit "a.txt")
    = Ok ([x68; x69], None, None).
Proof.
  refine (proj1 (small_buffer_passes_through
                   Sample.offline [x68; x69] (lit "a.txt") _)).
  vm_compute. discriminate.
Defined.

(** The guard at the bound itself and one byte above it. *)
Lemma compress_at_threshold (w : Services) (x : byte) (name : str) :
  let b := List.repeat x (Z.to_nat size_threshold) in
  len b = 75 * 1024 * 1024 /\
  compress_if_large w b name = Ok (b, None, None) /\
  compress_if_large w (x :: b) name =
    match zip_deflated w name (x :: b) with
    | Ok archive =>
      Ok (archive, Some (lit "application/zip"), Some (name ++ lit ".zip"))
    | Raises e => Raises e
    end.
Proof.
  intros b.
  assert (Hb : len b = size_threshold).
  { unfold b, len. rewrite repeat_length. apply Z2Nat.id.
    unfold size_threshold. lia. }
  assert (Hxb : len (x :: b) = size_threshold + 1).
  { unfold b. rewrite len_cons_repeat, Z2Nat.id; [reflexivity|].
    unfold size_threshold. lia. }
  split; [exact Hb|]. split.
  - apply compress_small. lia.
  - apply compress_large. lia.
Qed.

(** ** The prompt assembler *)

Lemma slice_is_first_8000 {A} (text : list A) :
  first_8000_of (slice_to 8000 text) text.
Proof.
  split.
  - intros Hlen. apply slice_to_short. unfold len. lia.
  - intros Hlen.
    destruct (slice_to_long 8000 text) as [Hl [rest Hr]]; [unfold len; lia|].
    unfold len in Hl. split; [lia|]. exists rest. split; [|exact Hr].
    intros ->. rewrite app_nil_r in Hr. rewrite <- Hr in Hl. lia.
Qed.

Lemma analyze_text_outcome (w : Services) (raw_text : str) :
  analyze_text w raw_text =
    (Return
       match chat_completions_create w (attachment_messages raw_text) with
       | Raises e => error_response (lit "OpenAI error: " ++ exn_str e) 502
       | Ok c =>
         match choices c with
         | [] =>
           error_response (lit "OpenAI error: list index out of range") 502
         | first :: _ =>
           json_response [(lit "analysis", json_opt_str first)] 200
         end
       end,
     [EvChat (attachment_messages raw_text)]).
Proof.
  unfold analyze_text, attachment_messages.
  unfold try_except, bind, call, lift, return_, first_choice.
  destruct (chat_completions_create w _) as [c|e]; [|reflexivity].
  now destruct (choices c).
Qed.

(** What [POST /analyze] does with a body that is a JSON object. *)
Lemma analyze_content_object (w : Services) (fields : list (str * json)) :
  let content := dict_get (lit "content") fields in
  let query := dict_get (lit "query") fields in
  finish (view_analyze_content w (JsonValue (JObj fields))) =
    if negb (py_truthy content) || negb (py_truthy query) then
      (error_response (lit "Both 'content' and 'query' are required.") 400, [])
    else
      match py_slice_8000 w content with
      | Raises e =>
        (error_response (lit "OpenAI error: " ++ exn_str e) 502, [])
      | Ok sliced =>
        let messages :=
          chat_messages (py_format w query ++ nl ++ nl ++ py_format w sliced) in
        (match chat_completions_create w messages with
         | Raises e => error_response (lit "OpenAI error: " ++ exn_str e) 502
         | Ok c =>
           match choices c with
           | [] =>
             error_response (lit "OpenAI error: list index out of range") 502
           | first :: _ =>
             match usage_json c with
             | Raises e =>
               error_response (lit "OpenAI error: " ++ exn_str e) 502
             | Ok usage =>
               json_response [(lit "response", json_opt_str first);
                              (lit "usage", usage)] 200
             end
           end
         end,
         [EvChat messages])
      end.
Proof.
  intros content query. unfold view_analyze_content.
  cbn [py_get lift bind]. fold content. fold query.
  destruct (negb (py_truthy content) || negb (py_truthy query));
    [reflexivity|].
  unfold try_except, bind, call, lift, return_, first_choice.
  destruct (py_slice_8000 w content) as [sliced|e]; [|reflexivity].
  cbn [app].
  destruct (chat_completions_create w _) as [c|e]; [|reflexivity].
  destruct (choices c) as [|first rest]; [reflexivity|].
  now destruct (usage_json c).
Qed.



(** The boundary at 7999, 8000 and 8001 characters. *)
Lemma slice_boundary :
  let text (n : N) : str := List.repeat 97%N (N.to_nat n) in
  slice_to 8000 (text 7999%N) = text 7999%N /\
  slice_to 8000 (text 8000%N) = text 8000%N /\
  slice_to 8000 (text 8001%N) = text 8000%N.
Proof.
  vm_compute. repeat split.
Qed.

(** ** MIME types seen in practice *)

Lemma select_parser_examples :
  select_parser (lit "application/pdf") = Some PdfParser /\
  select_parser (lit "text/plain") = Some Utf8Decoder /\
  select_parser (lit "text/spreadsheet") = Some Utf8Decoder /\
  select_parser
    (lit "application/vnd.openxmlformats-officedocument.spreadsheetml.sheet")
    = Some ExcelParser /\
  select_parser (lit "application/vnd.ms-excel") = Some ExcelParser /\
  select_parser
    (lit "application/vnd.openxmlformats-officedocument.wordprocessingml.document")
    = Some DocxParser /\
  select_parser (lit "application/msword") = Some DocxParser /\
  select_parser (lit "image/png") = None.
Proof.
  vm_compute. repeat split.
Qed.

(** The whole pipeline on a small text file. *)
Lemma text_file_end_to_end :
  full_dispatch_request Sample.secret_set
    (Sample.serving (lit "a.txt") (lit "text/plain")
                    (Some Sample.download_url) [x68; x69])
    (mk_request (Some analyze_attachment) NotFound (Some (lit "s3cret"))
                (lit "123") (lit "456") Sample.no_body) =
    (json_response [(lit "analysis", JStr (lit "summary"))] 200,
     [EvHandler analyze_attachment;
      EvGetAttachment (lit "123") (lit "456");
      EvRequests download_opts Sample.download_url;
      EvParse Utf8Decoder [x68; x69];
      EvChat (chat_messages (lit "Analyze this document:" ++ nl ++ nl
                             ++ lit "hi"))]).
Proof.
  reflexivity.
Qed.

(** * Further properties of the program *)

(** ** The gate on every endpoint *)

(** X1.  The liveness route is never gated: whatever the secret and
    whatever the header, [/health] answers 200 with the fixed body and
    reaches no collaborator. *)
Theorem healthcheck_is_open (cfg : Config) (w : Services) (req : request) :
  req_endpoint req = Some healthcheck ->
  full_dispatch_request cfg w req =
    (json_response [(lit "status", JStr (lit "ok"))] 200,
     [EvHandler healthcheck]).
Proof.
  intros He. unfold full_dispatch_request, auth_check. now rewrite He.
Qed.

Lemma healthcheck_is_open_witness :
  full_dispatch_request Sample.secret_set Sample.offline
    (mk_request (Some healthcheck) NotFound None [] [] Sample.no_body) =
    (json_response [(lit "status", JStr (lit "ok"))] 200,
     [EvHandler healthcheck]).
Proof.
  exact (healthcheck_is_open Sample.secret_set Sample.offline
           (mk_request (Some healthcheck) NotFound None [] [] Sample.no_body) eq_refl).
Defined.

(** X2.  The gate lets a request through exactly when it is for the
    liveness route or its header value equals the configured secret
    (both possibly [None]); every other request gets the one 403
    answer.  A request let through on a routed endpoint is answered by
    that endpoint's view; one that routing could not place is answered
    by the page of its routing error (404 for an unknown URL, 405 for
    a method the URL's rule does not allow, 308 for a redirect), and
    only after the gate. *)
Theorem gate_passes_iff (cfg : Config) (req : request) :
  (auth_check cfg req = None <->
   req_endpoint req = Some healthcheck \/
   x_internal_access req = SECRET_CODE cfg) /\
  (auth_check cfg req <> None ->
   auth_check cfg req =
     Some (error_response
             (lit "Unauthorized. Invalid internal access code.") 403)) /\
  (forall w : Services,
     auth_check cfg req = None ->
     full_dispatch_request cfg w req =
       match req_endpoint req with
       | Some e => (fst (finish (view w e req)),
                    EvHandler e :: snd (finish (view w e req)))
       | None =>
         (mk_response
            match req_routing_error req with
            | NotFound => 404
            | MethodNotAllowed => 405
            | RequestRedirect => 308
            end FrameworkPage, [])
       end).
Proof.
  split; [|split].
  - unfold auth_check.
    destruct (req_endpoint req) as [e|] eqn:He; cbn [not_in_open_endpoints].
    + destruct e; cbn [endpoint_eqb negb];
        try (destruct (opt_str_eqb (x_internal_access req) (SECRET_CODE cfg))
               eqn:Heq; cbn [negb];
             [ apply opt_str_eqb_eq in Heq; split; [now right|reflexivity]
             | split; [discriminate|];
               intros [Hh|Hh]; [discriminate|];
               apply opt_str_eqb_eq in Hh; congruence ]).
      split; [now left|reflexivity].
    + destruct (opt_str_eqb (x_internal_access req) (SECRET_CODE cfg)) eqn:Heq;
        cbn [negb].
      * apply opt_str_eqb_eq in Heq. split; [now right|reflexivity].
      * split; [discriminate|].
        intros [Hh|Hh]; [discriminate|].
        apply opt_str_eqb_eq in Hh. congruence.
  - unfold auth_check.
    destruct (not_in_open_endpoints (req_endpoint req)); [|congruence].
    destruct (negb (opt_str_eqb (x_internal_access req) (SECRET_CODE cfg)));
      congruence.
  - intros w Hpass. unfold full_dispatch_request. rewrite Hpass.
    destruct (req_endpoint req) as [e|].
    + now destruct (finish (view w e req)).
    + now destruct (req_routing_error req).
Qed.

(** ** [POST /analyze] *)

(** X3.  When the body is a JSON object whose [content] or [query] is
    missing, [null], empty or otherwise falsy, the answer is 400 with
    the fixed message and the model is not called. *)
Theorem analyze_content_requires_both
    (w : Services) (fields : list (str * json)) :
  py_truthy (dict_get (lit "content") fields) = false \/
  py_truthy (dict_get (lit "query") fields) = false ->
  finish (view_analyze_content w (JsonValue (JObj fields))) =
    (mk_response 400 (JsonBody (JObj
       [(lit "error",
         JStr (lit "Both 'content' and 'query' are required."))])), []).
Proof.
  intros Hmiss. rewrite analyze_content_object. cbv zeta.
  destruct Hmiss as [H|H]; rewrite H; cbn [negb orb]; [reflexivity|].
  now rewrite orb_true_r.
Qed.

Lemma analyze_content_requires_both_witness :
  finish (view_analyze_content Sample.offline
            (JsonValue (JObj [(lit "content", JStr (lit "Q3 revenue grew 10%."));
                              (lit "query", JStr [])]))) =
    (mk_response 400 (JsonBody (JObj
       [(lit "error",
         JStr (lit "Both 'content' and 'query' are required."))])), []).
Proof.
  exact (analyze_content_requires_both Sample.offline
           [(lit "content", JStr (lit "Q3 revenue grew 10%."));
            (lit "query", JStr [])]
           (or_intror eq_refl)).
Defined.

(** X4.  With an object body whose two fields are truthy, what happens
    depends on the kind of [content].  A string or a list is sliced and
    the model is called exactly once: an exception of the call, a
    completion without choices and a usage object that [jsonify] cannot
    serialise are all answered with 502 "OpenAI error: ...", otherwise
    the answer is 200 with the first choice's text (later choices are
    ignored) and the usage.  Any other content (a number, [true], an
    object) makes the slice raise inside the [try]: 502 without any
    model call. *)
Theorem analyze_content_outcome
    (w : Services) (fields : list (str * json)) :
  py_truthy (dict_get (lit "content") fields) = true ->
  py_truthy (dict_get (lit "query") fields) = true ->
  let content := dict_get (lit "content") fields in
  let query := dict_get (lit "query") fields in
  let send (sliced : str) :=
    let messages :=
      [mk_message (lit "system") (lit "You are a document analyst.");
       mk_message (lit "user") (py_format w query ++ [10%N; 10%N] ++ sliced)] in
    (match chat_completions_create w messages with
     | Raises e =>
       mk_response 502 (JsonBody (JObj
         [(lit "error", JStr (lit "OpenAI error: " ++ exn_str e))]))
     | Ok c =>
       match choices c with
       | [] =>
         mk_response 502 (JsonBody (JObj
           [(lit "error", JStr (lit "OpenAI error: list index out of range"))]))
       | first :: _ =>
         match usage_json c with
         | Raises e =>
           mk_response 502 (JsonBody (JObj
             [(lit "error", JStr (lit "OpenAI error: " ++ exn_str e))]))
         | Ok usage =>
           mk_response 200 (JsonBody (JObj
             [(lit "response", json_opt_str first); (lit "usage", usage)]))
         end
       end
     end,
     [EvChat messages]) in
  finish (view_analyze_content w (JsonValue (JObj fields))) =
    match content with
    | JStr s => send (firstn (N.to_nat 8000) s)
    | JArr items => send (py_str w (JArr (firstn (N.to_nat 8000) items)))
    | _ =>
      (mk_response 502 (JsonBody (JObj
         [(lit "error",
           JStr (lit "OpenAI error: " ++ subscript_error_str w content))])),
       [])
    end.
Proof.
  intros Hc Hq content query send. rewrite analyze_content_object.
  fold content query. fold content in Hc. fold query in Hq.
  rewrite Hc, Hq. cbn [negb orb].
  destruct content; cbn [py_slice_8000]; try reflexivity.
Qed.

Lemma analyze_content_outcome_witness :
  finish (view_analyze_content
            (Sample.serving [] [] None [])
            (JsonValue (JObj Cases.revenue_question))) =
    (mk_response 200 (JsonBody (JObj
       [(lit "response", JStr (lit "summary")); (lit "usage", JNull)])),
     [EvChat [mk_message (lit "system") (lit "You are a document analyst.");
              mk_message (lit "user")
                (lit "Summarize" ++ [10%N; 10%N]
                 ++ lit "Q3 revenue grew 10%.")]]).
Proof.
  exact (analyze_content_outcome (Sample.serving [] [] None [])
           Cases.revenue_question eq_refl eq_refl).
Defined.

(** ** [GET /analyze-attachment]: after the extraction *)



(** ** What [analyze_attachment] can answer, and what it calls *)

Lemma fetch_outcome (w : Services) (sheet att : str) :
  match fetch_attachment w sheet att with
  | (Cont _, t) =>
    List.map kind_of t = [KMetadata; KRequest]
  | (Return r, t) =>
    is_json r = true /\ In (status r) [200; 400; 404] /\
    (List.map kind_of t = [KMetadata] \/
     List.map kind_of t = [KMetadata; KRequest])
  | (Raise _, _) => False
  end.
Proof.
  unfold fetch_attachment, try_except, bind, call, lift, return_, ret.
  destruct (get_attachment w sheet att) as [[a|]|e]; cbn.
  2,3:repeat split; auto.
  destruct (att_url a) as [u|]; cbn.
  2:{ repeat split; auto. }
  destruct (truthy u); cbn.
  2:{ repeat split; auto. }
  destruct (requests_call w download_opts u) as [res|e]; cbn.
  2:{ repeat split; auto. }
  destruct (compress_if_large w (res_content res) (att_name a))
    as [[[b ct] cn]|e]; cbn.
  2:{ repeat split; auto. }
  destruct (opt_truthy ct); cbn; [|reflexivity].
  repeat split; auto.
Qed.

Lemma extract_outcome (w : Services) (ct : str) (b : bytes) :
  match extract_text w ct b with
  | (Cont _, t) => List.map kind_of t = [KParser]
  | (Return r, t) =>
    is_json r = true /\ In (status r) [415; 422] /\
    (List.map kind_of t = [] \/ List.map kind_of t = [KParser])
  | (Raise _, _) => False
  end.
Proof.
  rewrite extract_text_by_priority. unfold extract_by_priority, try_except.
  destruct (select_parser ct) as [p|]; [|cbn; auto].
  destruct p; cbn [run_parser]; unfold bind, call, ret, decode_utf8.
  - destruct (fitz_page_texts w b); cbn; auto 6.
  - destruct (Utf8.decode b); cbn; auto 6.
  - destruct (read_excel_to_string w b); cbn; auto 6.
  - destruct (docx_paragraph_texts w b); cbn; auto 6.
Qed.

Lemma extract_and_analyze_outcome (w : Services) (a : attachment) (b : bytes) :
  match extract_and_analyze w a b with
  | (Return r, t) =>
    is_json r = true /\ In (status r) [200; 415; 422; 502] /\
    (List.map kind_of t = [] \/ List.map kind_of t = [KParser] \/
     List.map kind_of t = [KParser; KModel])
  | _ => False
  end.
Proof.
  unfold extract_and_analyze, bind.
  pose proof (extract_outcome w (att_mime_type a) b) as Hx.
  destruct (extract_text w (att_mime_type a) b) as [[raw|r|e] t];
    [| |contradiction].
  - destruct (truthy raw); cbn [negb].
    + rewrite analyze_text_outcome, map_app, Hx.
      destruct (chat_completions_create w _) as [c|e];
        [destruct (choices c)|]; cbn; auto 8.
    + cbn. rewrite app_nil_r, Hx. cbn. auto 8.
  - destruct Hx as (Hj & Hs & Ht). split; [exact Hj|]. split.
    + destruct Hs as [<-|[<-|[]]]; cbn; auto.
    + destruct Ht as [->| ->]; auto.
Qed.

(** X6.  [analyze_attachment] lets no exception escape: its answer is
    always a JSON body with status 200, 400, 404, 415, 422 or 502,
    never the framework's 500 page. *)
Theorem analyze_attachment_statuses (w : Services) (sheet att : str) :
  is_json (fst (finish (view_analyze_attachment w sheet att))) = true /\
  In (status (fst (finish (view_analyze_attachment w sheet att))))
     [200; 400; 404; 415; 422; 502].
Proof.
  unfold view_analyze_attachment, bind.
  pose proof (fetch_outcome w sheet att) as Hf.
  destruct (fetch_attachment w sheet att) as [[[a b]|r|e] t];
    [| |contradiction].
  - cbn [fst snd].
    pose proof (extract_and_analyze_outcome w a b) as Hx.
    destruct (extract_and_analyze w a b) as [[x|r|e] t']; try contradiction.
    destruct Hx as (Hj & Hs & _). cbn. split; [exact Hj|].
    cbn in Hs. intuition auto.
  - destruct Hf as (Hj & Hs & _). cbn. split; [exact Hj|].
    cbn in Hs. intuition auto.
Qed.

(** X7.  [analyze_attachment] reaches its collaborators in one fixed
    order and each at most once: the metadata call always, then the
    download, then one parser, then the model.  Nothing is retried and
    no later stage runs without the earlier ones. *)
Theorem analyze_attachment_call_order (w : Services) (sheet att : str) :
  exists n : nat,
    (1 <= n <= 4)%nat /\
    List.map kind_of (snd (finish (view_analyze_attachment w sheet att))) =
      firstn n pipeline_order.
Proof.
  unfold view_analyze_attachment, bind.
  pose proof (fetch_outcome w sheet att) as Hf.
  destruct (fetch_attachment w sheet att) as [[[a b]|r|e] t];
    [| |contradiction].
  - cbn [fst snd].
    pose proof (extract_and_analyze_outcome w a b) as Hx.
    destruct (extract_and_analyze w a b) as [[x|r|e] t']; try contradiction.
    destruct Hx as (_ & _ & Ht). cbn [finish snd].
    rewrite map_app, Hf.
    destruct Ht as [->|[->| ->]].
    + exists 2%nat. split; [lia|reflexivity].
    + exists 3%nat. split; [lia|reflexivity].
    + exists 4%nat. split; [lia|reflexivity].
  - destruct Hf as (_ & _ & Ht). cbn [finish snd].
    destruct Ht as [->| ->].
    + exists 1%nat. split; [lia|reflexivity].
    + exists 2%nat. split; [lia|reflexivity].
Qed.

(** ** The download's status line is never looked at *)

Lemma fetch_attachment_same_content (w : Services)
    (f : req_opts -> str -> result http_response) (sheet att : str) :
  (forall o u, same_content (requests_call w o u) (f o u)) ->
  fetch_attachment (with_requests w f) sheet att = fetch_attachment w sheet att.
Proof.
  intros Hsame.
  unfold fetch_attachment, try_except, bind, call, lift, return_, ret.
  cbn [get_attachment requests_call with_requests].
  destruct (get_attachment w sheet att) as [[a|]|e]; try reflexivity.
  destruct (att_url a) as [u|]; [|reflexivity].
  destruct (truthy u); [|reflexivity]. cbn [negb].
  specialize (Hsame download_opts u). unfold same_content in Hsame.
  destruct (requests_call w download_opts u) as [r1|e1],
           (f download_opts u) as [r2|e2]; try contradiction.
  - now rewrite Hsame.
  - now subst.
Qed.

(** X8.  The pipeline uses nothing of the download's answer but its
    body bytes: [res.ok], the status code, the headers and the text are
    never consulted, so an HTTP error page is handed to the parsers
    like any file. *)
Theorem download_status_is_ignored (w : Services)
    (f : req_opts -> str -> result http_response) (sheet att : str) :
  (forall o u, same_content (requests_call w o u) (f o u)) ->
  view_analyze_attachment (with_requests w f) sheet att =
  view_analyze_attachment w sheet att.
Proof.
  intros Hsame. unfold view_analyze_attachment.
  now rewrite (fetch_attachment_same_content w f sheet att Hsame).
Qed.

Lemma download_status_is_ignored_witness :
  finish (view_analyze_attachment Cases.error_page (lit "123") (lit "456")) =
    (json_response [(lit "analysis", JStr (lit "summary"))] 200,
     Cases.fetched ++
     [EvParse Utf8Decoder [x68; x69];
      EvChat (attachment_messages (lit "hi"))]).
Proof.
  exact (eq_trans
    (f_equal finish
       (download_status_is_ignored
          (Sample.serving (lit "a.txt") (lit "text/plain")
                          (Some Sample.download_url) [x68; x69])
          (fun _ _ => Ok (mk_http_response false 404 [] (lit "Not Found")
                                           [x68; x69]
                                           (Raises Sample.not_a_document)))
          (lit "123") (lit "456")
          (fun _ _ => eq_refl)))
    eq_refl).
Defined.

(** ** The debug routes *)



(** ** [fetch_json] *)

(** X11.  [fetch_json] makes exactly one request, a [get] when the
    method is exactly "GET" and a [post] for every other method string.
    When it returns an error, the data is [None] and a status code
    comes with it: 502 for a [RequestException], the upstream status
    for an answer that is not [ok]; when it returns no error there is
    no status code either, and the data is the decoded body, which is
    [None] for a body that is JSON [null].  It raises only what it
    does not catch: an exception of another class, or the one from
    decoding an [ok] answer's body. *)
Theorem fetch_json_outcome (w : Services) (url method : str) :
  let o := mk_req_opts (negb (str_eqb method (lit "GET"))) true true in
  (opt_post o = false <-> method = lit "GET") /\
  fetch_json w url method =
    (match requests_call w o url with
     | Raises e =>
       match exn_cls e with
       | RequestException =>
         Cont (JNull, Some (JObj [(lit "error", JStr (exn_str e))]), Some 502)
       | OtherException => Raise e
       end
     | Ok res =>
       if res_ok res then
         match res_json res with
         | Ok j => Cont (j, None, None)
         | Raises e => Raise e
         end
       else
         Cont (JNull, Some (JObj [(lit "error", JStr (res_text res))]),
               Some (res_status_code res))
     end,
     [EvRequests o url]) /\
  match fst (fetch_json w url method) with
  | Cont (data, error, code) =>
    (error = None <-> code = None) /\ (error <> None -> data = JNull)
  | Raise _ => True
  | Return _ => False
  end.
Proof.
  intros o.
  assert (Hout : fetch_json w url method =
    (match requests_call w o url with
     | Raises e =>
       match exn_cls e with
       | RequestException =>
         Cont (JNull, Some (JObj [(lit "error", JStr (exn_str e))]), Some 502)
       | OtherException => Raise e
       end
     | Ok res =>
       if res_ok res then
         match res_json res with
         | Ok j => Cont (j, None, None)
         | Raises e => Raise e
         end
       else
         Cont (JNull, Some (JObj [(lit "error", JStr (res_text res))]),
               Some (res_status_code res))
     end,
     [EvRequests o url])).
  { unfold fetch_json, try_except_request, bind, call, lift, ret. fold o.
    destruct (requests_call w o url) as [res|e]; cbn.
    - destruct (res_ok res); cbn; [|reflexivity].
      now destruct (res_json res).
    - now destruct (exn_cls e). }
  split; [|split; [exact Hout|]].
  - unfold o. cbn [opt_post]. rewrite negb_false_iff. apply str_eqb_eq.
  - rewrite Hout. cbn [fst].
    destruct (requests_call w o url) as [res|e].
    + destruct (res_ok res).
      * destruct (res_json res); [|exact I].
        split; [split; reflexivity|congruence].
      * split; [split; discriminate|reflexivity].
    + destruct (exn_cls e); [|exact I].
      split; [split; discriminate|reflexivity].
Qed.

(** ** What the extractors hand to the model *)



Lemma join_nl_empty_iff (parts : list str) :
  join nl parts = [] <-> parts = [] \/ parts = [[]].
Proof.
  destruct parts as [|p [|q rest]]; cbn [join].
  - split; auto.
  - split; [intros ->; now right|intros [H|H]; congruence].
  - split.
    + intros H. apply app_eq_nil in H as [_ H]. discriminate.
    + intros [H|H]; discriminate.
Qed.

Lemma truthy_false_iff (s : str) : truthy s = false <-> s = [].
Proof.
  destruct s; cbn; split; congruence.
Qed.



(** ** [str.strip] and the word-processing branch *)

Lemma lstrip_length (s : str) : (List.length (lstrip s) <= List.length s)%nat.
Proof.
  induction s as [|c s IH]; cbn [lstrip]; [lia|].
  destruct (is_space c); cbn [List.length]; lia.
Qed.

Lemma lstrip_fixed (c : codepoint) (s : str) :
  lstrip (c :: s) = c :: s <-> is_space c = false.
Proof.
  cbn [lstrip]. destruct (is_space c); split; try congruence.
  intros H. pose proof (lstrip_length s) as Hl. rewrite H in Hl.
  cbn [List.length] in Hl. lia.
Qed.

Lemma lstrip_idempotent (s : str) : lstrip (lstrip s) = lstrip s.
Proof.
  induction s as [|c s IH]; [reflexivity|]. cbn [lstrip].
  destruct (is_space c) eqn:Hc; [exact IH|]. cbn [lstrip]. now rewrite Hc.
Qed.

Lemma lstrip_snoc (s : str) (c : codepoint) :
  is_space c = false -> lstrip (s ++ [c]) = lstrip s ++ [c].
Proof.
  intros Hc. induction s as [|x s IH]; cbn [lstrip app].
  - now rewrite Hc.
  - now destruct (is_space x).
Qed.

Lemma rstrip_idempotent (s : str) : rstrip (rstrip s) = rstrip s.
Proof.
  unfold rstrip. now rewrite rev_involutive, lstrip_idempotent.
Qed.

Lemma lstrip_rstrip (s : str) : lstrip s = s -> lstrip (rstrip s) = rstrip s.
Proof.
  destruct s as [|c s]; [reflexivity|]. intros Hs.
  apply lstrip_fixed in Hs. unfold rstrip. cbn [rev].
  rewrite (lstrip_snoc _ _ Hs), rev_app_distr. cbn [rev app].
  now apply lstrip_fixed.
Qed.

Lemma strip_trimmed (s : str) :
  lstrip (strip s) = strip s /\ rstrip (strip s) = strip s.
Proof.
  unfold strip. split.
  - apply lstrip_rstrip, lstrip_idempotent.
  - apply rstrip_idempotent.
Qed.

Lemma join_nonempty (sep : str) (parts : list str) :
  parts <> [] -> Forall (fun l => l <> []) parts -> join sep parts <> [].
Proof.
  intros Hne Hall. destruct parts as [|p rest]; [congruence|].
  inversion Hall as [|? ? Hp _]; subst.
  destruct rest; cbn [join]; [exact Hp|].
  intros H. apply app_eq_nil in H as [H _]. contradiction.
Qed.

Lemma kept_paragraphs (paras : list str) :
  let lines := List.map strip (List.filter (fun p => truthy (strip p)) paras) in
  Forall (fun l => l <> [] /\ lstrip l = l /\ rstrip l = l) lines /\
  (lines = [] <-> Forall (fun p => strip p = []) paras).
Proof.
  induction paras as [|p paras [IHall IHnil]]; cbn [List.filter List.map].
  - split; [constructor|]. split; [constructor|reflexivity].
  - destruct (truthy (strip p)) eqn:Hp; cbn [List.map].
    + split.
      * constructor; [|exact IHall].
        split; [intros H; rewrite H in Hp; discriminate|apply strip_trimmed].
      * split; [discriminate|].
        intros H. inversion H as [|? ? H1 _]; subst.
        rewrite H1 in Hp. discriminate.
    + apply truthy_false_iff in Hp. split; [exact IHall|].
      rewrite IHnil. split.
      * intros H. now constructor.
      * intros H. now inversion H.
Qed.



(** ** Bounds on what is sent and answered *)

Lemma len_app {A} (x y : list A) : len (x ++ y) = len x + len y.
Proof.
  unfold len. rewrite length_app. lia.
Qed.

Lemma len_slice_to {A} (n : N) (s : list A) :
  len (slice_to n s) = Z.min (Z.of_N n) (len s).
Proof.
  unfold len, slice_to. rewrite length_firstn. lia.
Qed.

Lemma no_chat_not_in (t : trace) (msgs : list message) :
  existsb is_chat t = false -> ~ In (EvChat msgs) t.
Proof.
  intros Hno Hin.
  assert (Hex : existsb is_chat t = true)
    by (apply existsb_exists; exists (EvChat msgs); now split).
  congruence.
Qed.

Lemma attachment_chat_event (w : Services) (sheet att : str)
    (msgs : list message) :
  In (EvChat msgs) (snd (finish (view_analyze_attachment w sheet att))) ->
  exists raw_text : str,
    raw_text <> [] /\
    msgs =
      [mk_message (lit "system") (lit "You are a document analyst.");
       mk_message (lit "user")
         (lit "Analyze this document:" ++ [10%N; 10%N]
          ++ firstn (N.to_nat 8000) raw_text)].
Proof.
  unfold view_analyze_attachment, bind.
  pose proof (fetch_no_chat w sheet att) as Hf.
  destruct (fetch_attachment w sheet att) as [[[a b]|r|e] t]; cbn [snd] in Hf;
    try (cbn [finish snd]; intros Hin; now apply no_chat_not_in in Hin).
  cbn [fst snd]. unfold extract_and_analyze, bind.
  pose proof (extract_text_no_chat w (att_mime_type a) b) as Hx.
  destruct (extract_text w (att_mime_type a) b) as [[raw|r|e] tx];
    cbn [snd] in Hx.
  - destruct (truthy raw) eqn:Hraw; cbn [negb].
    + rewrite analyze_text_outcome. cbn [finish snd]. intros Hin.
      apply in_app_or in Hin as [Hin|Hin];
        [now apply no_chat_not_in in Hin|].
      apply in_app_or in Hin as [Hin|Hin];
        [now apply no_chat_not_in in Hin|].
      destruct Hin as [Hin|[]]. injection Hin as <-.
      exists raw. split; [intros ->; discriminate|reflexivity].
    + cbn [return_ finish snd]. rewrite app_nil_r. intros Hin.
      apply in_app_or in Hin as [Hin|Hin]; now apply no_chat_not_in in Hin.
  - cbn [finish snd]. intros Hin.
    apply in_app_or in Hin as [Hin|Hin]; now apply no_chat_not_in in Hin.
  - cbn [finish snd]. intros Hin.
    apply in_app_or in Hin as [Hin|Hin]; now apply no_chat_not_in in Hin.
Qed.

(** X15.  Every model call the two views make carries two messages,
    the fixed system message and one user message.  In the trace of
    [analyze_attachment] the user message has between 25 and 8024
    characters: 24 of instruction and at least one, at most 8000, of
    text.  In the trace of [analyze_content] with a string query and a
    string content it is the whole query, two newlines and the first
    [min(8000, len(content))] characters of the content, so its length
    is not bounded by the program. *)
Theorem prompt_sizes (w : Services) (msgs : list message) :
  (forall sheet att : str,
     In (EvChat msgs) (snd (finish (view_analyze_attachment w sheet att))) ->
     exists user : str,
       msgs = [mk_message (lit "system") (lit "You are a document analyst.");
               mk_message (lit "user") user] /\
       25 <= Z.of_nat (List.length user) <= 8024) /\
  (forall (fields : list (str * json)) (content query : str),
     dict_get (lit "content") fields = JStr content ->
     dict_get (lit "query") fields = JStr query ->
     In (EvChat msgs)
        (snd (finish (view_analyze_content w (JsonValue (JObj fields))))) ->
     exists user : str,
       msgs = [mk_message (lit "system") (lit "You are a document analyst.");
               mk_message (lit "user") user] /\
       Z.of_nat (List.length user) =
         Z.of_nat (List.length query) + 2
         + Z.min 8000 (Z.of_nat (List.length content))).
Proof.
  split.
  - intros sheet att Hin.
    apply attachment_chat_event in Hin as (raw & Hraw & ->).
    eexists. split; [reflexivity|].
    cbv delta [str codepoint] in *.
    rewrite !length_app, length_firstn.
    change (List.length (lit "Analyze this document:")) with 22%nat.
    cbn [List.length].
    assert (1 <= List.length raw)%nat
      by (destruct raw; [congruence|cbn; lia]).
    lia.
  - intros fields content query Hc Hq.
    rewrite analyze_content_object, Hc, Hq. cbv zeta.
    cbn [py_truthy py_slice_8000 py_format].
    destruct (negb (truthy content) || negb (truthy query));
      cbn [snd]; [intros []|].
    intros [Hin|[]]. injection Hin as <-.
    eexists. split; [reflexivity|].
    unfold slice_to. cbv delta [str codepoint] in *.
    rewrite length_app. cbn [List.length]. rewrite length_firstn. lia.
Qed.

Lemma prompt_sizes_witness :
  exists user : str,
    [mk_message (lit "system") (lit "You are a document analyst.");
     mk_message (lit "user") (lit "Analyze this document:" ++ [10%N; 10%N]
                              ++ lit "page one")] =
    [mk_message (lit "system") (lit "You are a document analyst.");
     mk_message (lit "user") user] /\
    25 <= Z.of_nat (List.length user) <= 8024.
Proof.
  refine (proj1 (prompt_sizes
    (Sample.serving (lit "a.pdf") (lit "application/pdf")
                    (Some Sample.download_url) [x25])
    [mk_message (lit "system") (lit "You are a document analyst.");
     mk_message (lit "user") (lit "Analyze this document:" ++ [10%N; 10%N]
                              ++ lit "page one")])
    (lit "123") (lit "456") _).
  vm_compute. do 3 right. left. reflexivity.
Defined.

(** X16.  For a body that is a JSON object [analyze_content] lets no
    exception escape and calls the model at most once: the answer is a
    JSON body with status 200, 400 or 502.  A JSON body that is not an
    object (a list, a string, a number, [null]) makes [data.get] raise
    outside the [try]: the answer is the framework's 500 page.  When
    reading [request.json] aborts, the framework's own error page is
    the answer.  In neither of the last two cases is the model called. *)
Theorem analyze_content_statuses (w : Services) (body : request_json) :
  match body with
  | JsonAbort abort_status =>
    finish (view_analyze_content w body) =
      (mk_response abort_status FrameworkPage, [])
  | JsonValue (JObj fields) =>
    is_json (fst (finish (view_analyze_content w body))) = true /\
    In (status (fst (finish (view_analyze_content w body)))) [200; 400; 502] /\
    (List.length (snd (finish (view_analyze_content w body))) <= 1)%nat /\
    Forall (fun ev => is_chat ev = true)
           (snd (finish (view_analyze_content w body)))
  | JsonValue _ =>
    finish (view_analyze_content w body) = (mk_response 500 FrameworkPage, [])
  end.
Proof.
  destruct body as [abort_status|[ |b|n|z|s|items|fields]]; try reflexivity.
  rewrite analyze_content_object. cbv zeta.
  destruct (negb (py_truthy (dict_get (lit "content") fields))
            || negb (py_truthy (dict_get (lit "query") fields))).
  { cbn. repeat split; auto; lia. }
  destruct (py_slice_8000 w _) as [sliced|e].
  2:{ cbn. repeat split; auto; lia. }
  cbv zeta.
  destruct (chat_completions_create w _) as [c|e];
    [destruct (choices c); [|destruct (usage_json c)]|];
    cbn; repeat split; auto 6.
Qed.
